(** * Telethon [client/auth.py]: the authentication methods of the client

    A shallow embedding of [AuthMethods] (start, _start, sign_in, sign_up,
    _on_login, send_code_request, log_out, edit_2fa) as functions in a state
    and exception monad over the client object, followed by the properties
    of the sign-in flow that the specification states. *)

From Stdlib Require Import ZArith Ascii String List Strings.Byte DecimalString.
From stdpp Require Import gmap strings list.

Open Scope Z_scope.
Open Scope string_scope.
Open Scope list_scope.

(** ** Python values *)

(** The values the methods receive where the source accepts
    [None], a [str] or an [int]. *)
Inductive PyVal : Type :=
| PNone
| PStr (s : string)
| PInt (z : Z).

(** Python truthiness of a string: only the empty string is falsy. *)
Definition str_truthy (s : string) : bool :=
  match s with
  | EmptyString => false
  | String _ _ => true
  end.

(** Python truthiness ([if v:], [not v]). *)
Definition truthy (v : PyVal) : bool :=
  match v with
  | PNone => false
  | PStr s => str_truthy s
  | PInt z => negb (z =? 0)%Z
  end.

(** Truthiness of a value that is [None] or a [str]. *)
Definition opt_truthy (o : option string) : bool :=
  match o with
  | None => false
  | Some s => str_truthy s
  end.

(** Python's [a or b] on values that are [None] or a [str]. *)
Definition py_or (a b : option string) : option string :=
  if opt_truthy a then a else b.

(** Decimal rendering of an [int], as [str(n)] and ['{}'.format(n)] give it. *)
Definition str_of_int (z : Z) : string :=
  NilZero.string_of_int (Z.to_int z).

(** [str(v)]. *)
Definition py_str (v : PyVal) : string :=
  match v with
  | PNone => "None"
  | PStr s => s
  | PInt z => str_of_int z
  end.

(** [c in s] for a one-character [c]. *)
Fixpoint str_contains (c : ascii) (s : string) : bool :=
  match s with
  | EmptyString => false
  | String a rest => if Ascii.eqb a c then true else str_contains c rest
  end.

(** ** TL objects read by the module *)

Record MessageEntity : Type := {
  ent_offset : Z;
  ent_length : Z
}.

Record TermsOfService : Type := {
  tos_id : string;
  tos_text : string;
  tos_entities : list MessageEntity
}.

(** [auth.SentCode]: the fields [auth.py] reads. *)
Record SentCode : Type := {
  phone_registered : bool;
  phone_code_hash : string;
  terms_of_service : option TermsOfService
}.

Record User : Type := {
  user_id : Z;
  access_hash : Z;
  bot : option bool;
  first_name_of : string
}.

(** [auth.Authorization]: [result.user]. *)
Record Authorization : Type := {
  user : User
}.

Inductive InputPeer : Type :=
| InputPeerUser (id : Z) (hash : Z).

Record PasswordKdfAlgo : Type := {
  salt1 : list byte;
  salt2 : list byte;
  algo_g : Z;
  algo_p : list byte
}.

(** [account.Password]: the server's password descriptor. *)
Record Password : Type := {
  has_password : bool;
  current_algo : option PasswordKdfAlgo;
  new_algo : PasswordKdfAlgo;
  pwd_hint : string
}.

Inductive InputCheckPassword : Type :=
| InputCheckPasswordEmpty
| InputCheckPasswordSRP (srp_id : Z) (A : list byte) (M1 : list byte).

Record PasswordInputSettings : Type := {
  pis_new_algo : PasswordKdfAlgo;
  pis_new_password_hash : list byte;
  pis_hint : string;
  pis_email : PyVal
}.

(** ** Requests and errors *)

(** The requests [auth.py] builds, indexed by the type of their result. *)
Inductive Request : Type -> Type :=
| SendCodeRequest (phone : option string) (api_id : Z) (api_hash : string)
  : Request SentCode
| ResendCodeRequest (phone : option string) (phone_hash : string)
  : Request SentCode
| SignInRequest (phone : string) (phone_hash : string) (code : string)
  : Request Authorization
| SignUpRequest (phone : string) (phone_hash : string) (code : string)
    (first_name : string) (last_name : string)
  : Request Authorization
| AcceptTermsOfServiceRequest (id : string) : Request bool
| GetPasswordRequest : Request Password
| CheckPasswordRequest (password : InputCheckPassword) : Request Authorization
| ImportBotAuthorizationRequest (flags : Z) (bot_auth_token : PyVal)
    (api_id : Z) (api_hash : string)
  : Request Authorization
| LogOutRequest : Request bool
| UpdatePasswordSettingsRequest (password : InputCheckPassword)
    (new_settings : PasswordInputSettings)
  : Request bool
| ConfirmPasswordEmailRequest (code : string) : Request bool.

(** The subclasses of [errors.RPCError] the module names, and the rest. *)
Inductive RPCError : Type :=
| AuthRestartError
| SessionPasswordNeededError
| PhoneNumberOccupiedError
| PhoneNumberUnoccupiedError
| PhoneCodeEmptyError
| PhoneCodeExpiredError
| PhoneCodeHashEmptyError
| PhoneCodeInvalidError
| PasswordHashInvalidError
| EmailUnconfirmedError (code_length : Z)
| OtherRPCError (name : string).

Inductive Exception : Type :=
| RPC (e : RPCError)
| ValueError (msg : string)
| RuntimeError (msg : string)
| TypeError (msg : string).

(** What a call ends in: a value, an exception, or (for the two loops of
    the source that have no bound) the exhaustion of the fuel. *)
Inductive Outcome (A : Type) : Type :=
| Ok (a : A)
| Raise (e : Exception)
| OutOfFuel.

Arguments Ok {A} a.
Arguments Raise {A} e.
Arguments OutOfFuel {A}.

(** What is asked of the caller through a callback. *)
Inductive Prompt : Type :=
| ForPhone
| ForCode
| ForPassword
| ForEmailCode (code_length : Z).

(** The interactions of a run, oldest first: requests sent to the remote
    and values obtained from the caller's callbacks. *)
Inductive Event : Type :=
| Invoked {T : Type} (r : Request T)
| Asked (p : Prompt) (v : string).

(** [non-callable value | callable]: an argument of [start] or [edit_2fa]
    that may be given as a value or as a callback of type [F]. *)
Inductive Arg (F : Type) : Type :=
| Fixed (v : PyVal)
| Callable (f : F).

Arguments Fixed {F} v.
Arguments Callable {F} f.

(** [callable(a)]. *)
Definition callable {F : Type} (a : Arg F) : bool :=
  match a with
  | Fixed _ => false
  | Callable _ => true
  end.

(** Truthiness of an argument: a function object is truthy. *)
Definition arg_truthy {F : Type} (a : Arg F) : bool :=
  match a with
  | Fixed v => truthy v
  | Callable _ => true
  end.

(** [a is None]. *)
Definition is_None (v : PyVal) : bool :=
  match v with
  | PNone => true
  | _ => false
  end.

(** A value that is [None] or a [str], as a [PyVal]. *)
Definition of_opt (o : option string) : PyVal :=
  match o with
  | None => PNone
  | Some s => PStr s
  end.

(** What [sign_in] returns: the signed in user, or the information about
    the code that [send_code_request] sent. *)
Inductive SignInResult : Type :=
| RUser (u : User)
| RSentCode (sc : SentCode).

(** ** The client object *)

Section Client.

(** The state of everything outside the client: the remote service, the
    caller behind the callbacks, the random source. *)
Variable Env : Type.

(** [self]: the attributes [auth.py] reads and writes, the interactions so
    far, what was printed, and the environment. *)
Record Client : Type := {
  api_id : Z;
  api_hash : string;
  parse_mode : option (string -> list MessageEntity -> string);
  _bot : option bool;
  _self_input_peer : option InputPeer;
  _authorized : option bool;
  _phone : option string;
  _phone_code_hash : gmap (option string) string;
  _tos : option TermsOfService;
  _state_cache : gmap Z Z;
  connected : bool;
  session : option (list byte);
  log : list Event;
  stderr : list string;
  stdout : list string;
  env : Env
}.

Definition set_bot (v : option bool) (w : Client) : Client :=
  {| api_id := api_id w; api_hash := api_hash w; parse_mode := parse_mode w;
     _bot := v; _self_input_peer := _self_input_peer w;
     _authorized := _authorized w; _phone := _phone w;
     _phone_code_hash := _phone_code_hash w; _tos := _tos w;
     _state_cache := _state_cache w; connected := connected w;
     session := session w; log := log w; stderr := stderr w;
     stdout := stdout w; env := env w |}.

Definition set_self_input_peer (v : option InputPeer) (w : Client) : Client :=
  {| api_id := api_id w; api_hash := api_hash w; parse_mode := parse_mode w;
     _bot := _bot w; _self_input_peer := v;
     _authorized := _authorized w; _phone := _phone w;
     _phone_code_hash := _phone_code_hash w; _tos := _tos w;
     _state_cache := _state_cache w; connected := connected w;
     session := session w; log := log w; stderr := stderr w;
     stdout := stdout w; env := env w |}.

Definition set_authorized (v : option bool) (w : Client) : Client :=
  {| api_id := api_id w; api_hash := api_hash w; parse_mode := parse_mode w;
     _bot := _bot w; _self_input_peer := _self_input_peer w;
     _authorized := v; _phone := _phone w;
     _phone_code_hash := _phone_code_hash w; _tos := _tos w;
     _state_cache := _state_cache w; connected := connected w;
     session := session w; log := log w; stderr := stderr w;
     stdout := stdout w; env := env w |}.

Definition set_phone (v : option string) (w : Client) : Client :=
  {| api_id := api_id w; api_hash := api_hash w; parse_mode := parse_mode w;
     _bot := _bot w; _self_input_peer := _self_input_peer w;
     _authorized := _authorized w; _phone := v;
     _phone_code_hash := _phone_code_hash w; _tos := _tos w;
     _state_cache := _state_cache w; connected := connected w;
     session := session w; log := log w; stderr := stderr w;
     stdout := stdout w; env := env w |}.

Definition set_phone_code_hash (v : gmap (option string) string) (w : Client)
  : Client :=
  {| api_id := api_id w; api_hash := api_hash w; parse_mode := parse_mode w;
     _bot := _bot w; _self_input_peer := _self_input_peer w;
     _authorized := _authorized w; _phone := _phone w;
     _phone_code_hash := v; _tos := _tos w;
     _state_cache := _state_cache w; connected := connected w;
     session := session w; log := log w; stderr := stderr w;
     stdout := stdout w; env := env w |}.

Definition set_tos (v : option TermsOfService) (w : Client) : Client :=
  {| api_id := api_id w; api_hash := api_hash w; parse_mode := parse_mode w;
     _bot := _bot w; _self_input_peer := _self_input_peer w;
     _authorized := _authorized w; _phone := _phone w;
     _phone_code_hash := _phone_code_hash w; _tos := v;
     _state_cache := _state_cache w; connected := connected w;
     session := session w; log := log w; stderr := stderr w;
     stdout := stdout w; env := env w |}.

Definition set_state_cache (v : gmap Z Z) (w : Client) : Client :=
  {| api_id := api_id w; api_hash := api_hash w; parse_mode := parse_mode w;
     _bot := _bot w; _self_input_peer := _self_input_peer w;
     _authorized := _authorized w; _phone := _phone w;
     _phone_code_hash := _phone_code_hash w; _tos := _tos w;
     _state_cache := v; connected := connected w;
     session := session w; log := log w; stderr := stderr w;
     stdout := stdout w; env := env w |}.

Definition set_connected (v : bool) (w : Client) : Client :=
  {| api_id := api_id w; api_hash := api_hash w; parse_mode := parse_mode w;
     _bot := _bot w; _self_input_peer := _self_input_peer w;
     _authorized := _authorized w; _phone := _phone w;
     _phone_code_hash := _phone_code_hash w; _tos := _tos w;
     _state_cache := _state_cache w; connected := v;
     session := session w; log := log w; stderr := stderr w;
     stdout := stdout w; env := env w |}.

Definition set_session (v : option (list byte)) (w : Client) : Client :=
  {| api_id := api_id w; api_hash := api_hash w; parse_mode := parse_mode w;
     _bot := _bot w; _self_input_peer := _self_input_peer w;
     _authorized := _authorized w; _phone := _phone w;
     _phone_code_hash := _phone_code_hash w; _tos := _tos w;
     _state_cache := _state_cache w; connected := connected w;
     session := v; log := log w; stderr := stderr w;
     stdout := stdout w; env := env w |}.

Definition set_log (v : list Event) (w : Client) : Client :=
  {| api_id := api_id w; api_hash := api_hash w; parse_mode := parse_mode w;
     _bot := _bot w; _self_input_peer := _self_input_peer w;
     _authorized := _authorized w; _phone := _phone w;
     _phone_code_hash := _phone_code_hash w; _tos := _tos w;
     _state_cache := _state_cache w; connected := connected w;
     session := session w; log := v; stderr := stderr w;
     stdout := stdout w; env := env w |}.

Definition set_stderr (v : list string) (w : Client) : Client :=
  {| api_id := api_id w; api_hash := api_hash w; parse_mode := parse_mode w;
     _bot := _bot w; _self_input_peer := _self_input_peer w;
     _authorized := _authorized w; _phone := _phone w;
     _phone_code_hash := _phone_code_hash w; _tos := _tos w;
     _state_cache := _state_cache w; connected := connected w;
     session := session w; log := log w; stderr := v;
     stdout := stdout w; env := env w |}.

Definition set_stdout (v : list string) (w : Client) : Client :=
  {| api_id := api_id w; api_hash := api_hash w; parse_mode := parse_mode w;
     _bot := _bot w; _self_input_peer := _self_input_peer w;
     _authorized := _authorized w; _phone := _phone w;
     _phone_code_hash := _phone_code_hash w; _tos := _tos w;
     _state_cache := _state_cache w; connected := connected w;
     session := session w; log := log w; stderr := stderr w;
     stdout := v; env := env w |}.

Definition set_env (v : Env) (w : Client) : Client :=
  {| api_id := api_id w; api_hash := api_hash w; parse_mode := parse_mode w;
     _bot := _bot w; _self_input_peer := _self_input_peer w;
     _authorized := _authorized w; _phone := _phone w;
     _phone_code_hash := _phone_code_hash w; _tos := _tos w;
     _state_cache := _state_cache w; connected := connected w;
     session := session w; log := log w; stderr := stderr w;
     stdout := stdout w; env := v |}.

(** ** The monad of the methods: state of the client, exceptions *)

Definition M (A : Type) : Type := Client -> Outcome A * Client.

Definition ret {A : Type} (a : A) : M A := fun w => (Ok a, w).

Definition raise {A : Type} (e : Exception) : M A := fun w => (Raise e, w).

Definition out_of_fuel {A : Type} : M A := fun w => (OutOfFuel, w).

Definition bind {A B : Type} (m : M A) (k : A -> M B) : M B :=
  fun w =>
    match m w with
    | (Ok a, w1) => k a w1
    | (Raise e, w1) => (Raise e, w1)
    | (OutOfFuel, w1) => (OutOfFuel, w1)
    end.

(** [try: m except ...: h e]; the handler re-raises what it does not catch. *)
Definition catch {A : Type} (m : M A) (h : Exception -> M A) : M A :=
  fun w =>
    match m w with
    | (Raise e, w1) => h e w1
    | r => r
    end.

(** A statement that only changes the client. *)
Definition modify (f : Client -> Client) : M unit := fun w => (Ok tt, f w).

Definition when (b : bool) (m : M unit) : M unit := if b then m else ret tt.

End Client.

Arguments api_id {Env} c.
Arguments api_hash {Env} c.
Arguments parse_mode {Env} c.
Arguments _bot {Env} c.
Arguments _self_input_peer {Env} c.
Arguments _authorized {Env} c.
Arguments _phone {Env} c.
Arguments _phone_code_hash {Env} c.
Arguments _tos {Env} c.
Arguments _state_cache {Env} c.
Arguments connected {Env} c.
Arguments session {Env} c.
Arguments log {Env} c.
Arguments stderr {Env} c.
Arguments stdout {Env} c.
Arguments env {Env} c.
Arguments set_bot {Env} v w.
Arguments set_self_input_peer {Env} v w.
Arguments set_authorized {Env} v w.
Arguments set_phone {Env} v w.
Arguments set_phone_code_hash {Env} v w.
Arguments set_tos {Env} v w.
Arguments set_state_cache {Env} v w.
Arguments set_connected {Env} v w.
Arguments set_session {Env} v w.
Arguments set_log {Env} v w.
Arguments set_stderr {Env} v w.
Arguments set_stdout {Env} v w.
Arguments set_env {Env} v w.
Arguments ret {Env A} a w.
Arguments raise {Env A} e w.
Arguments out_of_fuel {Env A} w.
Arguments bind {Env A B} m k w.
Arguments catch {Env A} m h w.
Arguments modify {Env} f w.
Arguments when {Env} b m.

Declare Scope auth_scope.
Delimit Scope auth_scope with auth.
Notation "x <- m ;; k" := (bind m (fun x => k))
  (at level 100, m at next level, right associativity) : auth_scope.
Notation "m ;;; k" := (bind m (fun _ => k))
  (at level 100, right associativity) : auth_scope.
Open Scope auth_scope.

(** ** What the module consumes from the rest of the library *)

(** What a callback returns: a value, or an awaitable that gives the value
    when awaited. *)
Inductive CbResult (Env : Type) : Type :=
| Immediate (v : string)
| Awaitable (k : Env -> string * Env).

Arguments Immediate {Env} v.
Arguments Awaitable {Env} k.

(** A callback of the caller, without arguments. *)
Definition Callback (Env : Type) : Type := Env -> CbResult Env * Env.

(** The collaborators of [auth.py] whose code is in other modules: the
    transport ([self(request)]), [UserMethods], [utils], [password], [os]
    and the terminal. *)
Class Collaborators (Env : Type) : Type := {
  (** [await self(request)]: the answer of the remote, an RPC error or
      the result. *)
  remote : forall T : Type, Request T -> Env -> (RPCError + T) * Env;
  (** [UserMethods.get_me]: the current user, [None] when not authorized. *)
  get_me : M Env (option User);
  (** [UserMethods.is_user_authorized]. *)
  is_user_authorized : M Env bool;
  (** [utils.parse_phone]: the normalized phone, [None] when it has none. *)
  parse_phone : PyVal -> option string;
  (** [utils.get_display_name]. *)
  get_display_name : option SignInResult -> string;
  (** [utils.get_input_peer(user, allow_self=False)]. *)
  get_input_peer : User -> InputPeer;
  (** [password.compute_check]. *)
  compute_check : Password -> PyVal -> InputCheckPassword;
  (** [password.compute_digest]. *)
  compute_digest : PasswordKdfAlgo -> PyVal -> list byte;
  (** [os.urandom]. *)
  urandom : Z -> Env -> list byte * Env;
  (** [input(prompt)]. *)
  input : string -> Env -> string * Env;
  (** Whether the terminal can encode a line ([print] raises
      [UnicodeEncodeError] when it cannot). *)
  stdout_encodable : string -> bool;
  (** [s.encode('utf-8', errors='ignore').decode('ascii', errors='ignore')]. *)
  ascii_only : string -> string
}.

Section Auth.

Context {Env : Type} {collab : Collaborators Env}.

Abbreviation Client := (Client Env).
Abbreviation M := (M Env).

(** [await self(request)]: the request is recorded, the remote answers. *)
Definition invoke {T : Type} (r : Request T) : M T :=
  fun w =>
    let '(res, e') := remote T r (env w) in
    let w' := set_env e' (set_log (log w ++ [Invoked r]) w) in
    match res with
    | inl err => (Raise (RPC err), w')
    | inr x => (Ok x, w')
    end.

(** [value = cb()], followed by
    [if inspect.isawaitable(value): value = await value]. *)
Definition call_callback (p : Prompt) (cb : Callback Env) : M string :=
  fun w =>
    let '(r, e1) := cb (env w) in
    let '(v, e2) :=
      match r with
      | Immediate v => (v, e1)
      | Awaitable k => k e1
      end in
    (Ok v, set_log (log w ++ [Asked p v]) (set_env e2 w)).

(** [print(line, file=sys.stderr)]. *)
Definition print_stderr (line : string) : M unit :=
  modify (fun w => set_stderr (stderr w ++ [line]) w).

(** Modelled from the spec: [is_connected], [connect] and [disconnect] are
    methods of the base client, which is not in the sources; the spec has
    them as the connect/disconnect lifecycle of the transport, kept here as
    one flag. *)
Definition is_connected (w : Client) : bool := connected w.

(** Modelled from the spec: [connect] of the base client (see
    [is_connected]). *)
Definition connect : M unit := modify (set_connected true).

(** Modelled from the spec: [disconnect] of the base client, "disconnects
    the transport". *)
Definition disconnect : M unit := modify (set_connected false).

(** Modelled from the spec: [StateCache.reset], "resets any cached
    incoming-update/sequence state". *)
Definition state_cache_reset : M unit := modify (set_state_cache ∅).

(** Modelled from the spec: [Session.delete], "deletes persisted session
    data". *)
Definition session_delete : M unit := modify (set_session None).

(** The value of [o] when it is truthy. *)
Definition truthy_str (o : option string) : option string :=
  match o with
  | Some s => if str_truthy s then Some s else None
  | None => None
  end.

(** [_parse_phone_and_hash]. *)
Definition _parse_phone_and_hash (phone : PyVal) (phone_hash : option string)
  : M (string * string) :=
  fun w =>
    match truthy_str (py_or (parse_phone phone) (_phone w)) with
    | None =>
      raise (ValueError "Please make sure to call send_code_request first.") w
    | Some phone =>
      match truthy_str
              (py_or phone_hash (_phone_code_hash w !! Some phone)) with
      | None => raise (ValueError "You also need to provide a phone_code_hash.") w
      | Some phone_hash => ret (phone, phone_hash) w
      end
    end.

(** [_on_login]. *)
Definition _on_login (user : User) : M User :=
  modify (fun w =>
    set_authorized (Some true)
      (set_self_input_peer (Some (get_input_peer user))
         (set_bot (Some (match bot user with Some b => b | None => false end))
            w))) ;;;
  ret user.

(** [send_code_request]. The source calls itself again on
    [AuthRestartError], without a bound; [fuel] bounds the calls. *)
Fixpoint send_code_request (fuel : nat) (phone : PyVal) (force_sms : bool)
  : M SentCode :=
  match fuel with
  | O => out_of_fuel
  | S fuel' =>
    fun w =>
      let phone := py_or (parse_phone phone) (_phone w) in
      let phone_hash := _phone_code_hash w !! phone in
      match truthy_str phone_hash with
      | None =>
        match invoke (SendCodeRequest phone (api_id w) (api_hash w)) w with
        | (Raise (RPC AuthRestartError), w1) =>
          send_code_request fuel' (of_opt phone) force_sms w1
        | (Raise e, w1) => (Raise e, w1)
        | (OutOfFuel, w1) => (OutOfFuel, w1)
        | (Ok result, w1) =>
          let phone_hash := phone_code_hash result in
          let w2 :=
            set_phone phone
              (set_phone_code_hash
                 (<[phone := phone_hash]> (_phone_code_hash w1))
                 (set_tos (terms_of_service result) w1)) in
          if force_sms then
            (result <- invoke (ResendCodeRequest phone phone_hash) ;;
             modify (fun w =>
               set_phone_code_hash
                 (<[phone := phone_code_hash result]> (_phone_code_hash w))
                 w) ;;;
             ret result) w2
          else (Ok result, w2)
        end
      | Some phone_hash =>
        (* force_sms = True *)
        (result <- invoke (ResendCodeRequest phone phone_hash) ;;
         modify (fun w =>
           set_phone_code_hash
             (<[phone := phone_code_hash result]> (_phone_code_hash w)) w) ;;;
         ret result) (set_phone phone w)
      end
  end.

(** [sign_in]. *)
Definition sign_in (fuel : nat) (phone code password bot_token : PyVal)
    (phone_code_hash : option string) : M SignInResult :=
  me <- get_me ;;
  match me with
  | Some me => ret (RUser me)
  | None =>
    if truthy phone && negb (truthy code) && negb (truthy password) then
      sc <- send_code_request fuel phone false ;;
      ret (RSentCode sc)
    else
      result <-
        (if truthy code then
           ph <- _parse_phone_and_hash phone phone_code_hash ;;
           invoke (SignInRequest (fst ph) (snd ph) (py_str code))
         else if truthy password then
           pwd <- invoke GetPasswordRequest ;;
           invoke (CheckPasswordRequest (compute_check pwd password))
         else if truthy bot_token then
           fun w =>
             invoke (ImportBotAuthorizationRequest 0 bot_token
                       (api_id w) (api_hash w)) w
         else
           raise (ValueError
             ("You must provide a phone and a code the first time, "
              +:+ "and a password only if an RPCError was raised before."))) ;;
      u <- _on_login (user result) ;;
      ret (RUser u)
  end.

(** The first statement of [sign_up] after [get_me]: the terms of service
    that [send_code_request] stored are written to [sys.stderr]
    ([if self._tos and self._tos.text: ...]). *)
Definition write_tos : M unit :=
  fun w =>
    match _tos w with
    | Some tos =>
      if str_truthy (tos_text tos) then
        let t :=
          match parse_mode w with
          | Some unparse => unparse (tos_text tos) (tos_entities tos)
          | None => tos_text tos
          end in
        print_stderr t w
      else ret tt w
    | None => ret tt w
    end.

(** [if self._tos: await self(AcceptTermsOfServiceRequest(self._tos.id))]. *)
Definition accept_tos : M unit :=
  fun w =>
    match _tos w with
    | Some tos =>
      (invoke (AcceptTermsOfServiceRequest (tos_id tos)) ;;; ret tt) w
    | None => ret tt w
    end.

(** [sign_up]. *)
Definition sign_up (code : PyVal) (first_name last_name : string)
    (phone : PyVal) (phone_code_hash : option string) : M User :=
  me <- get_me ;;
  match me with
  | Some me => ret me
  | None =>
    write_tos ;;;
    ph <- _parse_phone_and_hash phone phone_code_hash ;;
    result <- invoke (SignUpRequest (fst ph) (snd ph) (py_str code)
                        first_name last_name) ;;
    accept_tos ;;;
    _on_login (user result)
  end.

(** [log_out]. *)
Definition log_out : M bool :=
  fun w =>
    match invoke LogOutRequest w with
    | (Raise (RPC _), w1) => (Ok false, w1)
    | (Raise e, w1) => (Raise e, w1)
    | (OutOfFuel, w1) => (OutOfFuel, w1)
    | (Ok _, w1) =>
      (modify (fun w =>
         set_authorized (Some false)
           (set_self_input_peer None (set_bot None w))) ;;;
       state_cache_reset ;;;
       disconnect ;;;
       session_delete ;;;
       ret true) w1
    end.

(** A callback of the caller that takes the length of the code. *)
Definition EmailCallback : Type := Z -> Callback Env.

(** [pwd.new_algo.salt1 += fresh]: the descriptor with the bytes appended
    to the salt of its new algorithm. *)
Definition refresh_salt (pwd : Password) (fresh : list byte) : Password :=
  {| has_password := has_password pwd;
     current_algo := current_algo pwd;
     new_algo :=
       {| salt1 := salt1 (new_algo pwd) ++ fresh;
          salt2 := salt2 (new_algo pwd);
          algo_g := algo_g (new_algo pwd);
          algo_p := algo_p (new_algo pwd) |};
     pwd_hint := pwd_hint pwd |}.

(** [os.urandom(n)] as a statement of the client. *)
Definition os_urandom (n : Z) : M (list byte) :=
  fun w =>
    let '(bytes, e') := urandom n (env w) in
    (Ok bytes, set_env e' w).

(** [edit_2fa]. *)
Definition edit_2fa (current_password new_password : PyVal) (hint : string)
    (email : PyVal) (email_code_callback : Arg EmailCallback) : M bool :=
  if is_None new_password && is_None current_password then ret false
  else if truthy email && negb (callable email_code_callback) then
    raise (ValueError "email present without email_code_callback")
  else
    pwd <- invoke GetPasswordRequest ;;
    fresh <- os_urandom 32 ;;
    let pwd := refresh_salt pwd fresh in
    let current_password :=
      if negb (has_password pwd) && truthy current_password then PNone
      else current_password in
    let password :=
      if truthy current_password then compute_check pwd current_password
      else InputCheckPasswordEmpty in
    let new_password_hash :=
      if truthy new_password then compute_digest (new_algo pwd) new_password
      else [] in
    catch
      (invoke (UpdatePasswordSettingsRequest password
                 {| pis_new_algo := new_algo pwd;
                    pis_new_password_hash := new_password_hash;
                    pis_hint := hint;
                    pis_email := email |}) ;;;
       ret tt)
      (fun e =>
         match e with
         | RPC (EmailUnconfirmedError code_length) =>
           match email_code_callback with
           | Callable cb =>
             code <- call_callback (ForEmailCode code_length)
                       (cb code_length) ;;
             invoke (ConfirmPasswordEmailRequest code) ;;;
             ret tt
           | Fixed _ => raise (TypeError "object is not callable")
           end
         | _ => raise e
         end) ;;;
    ret true.

(** *** [_start] *)

(** The loop of [_start] that turns a callable [phone] into a phone number
    or a bot token. It has no bound in the source; [fuel] bounds its
    iterations. *)
Fixpoint resolve_phone (fuel : nat) (phone : Arg (Callback Env))
    (bot_token : PyVal) : M (Arg (Callback Env) * PyVal) :=
  match phone with
  | Fixed _ => ret (phone, bot_token)
  | Callable cb =>
    match fuel with
    | O => out_of_fuel
    | S fuel' =>
      value <- call_callback ForPhone cb ;;
      if str_contains ":" value then
        (* Bot tokens have 'user_id:access_hash' format *)
        ret (phone, PStr value)
      else
        resolve_phone fuel'
          (match truthy_str (parse_phone (PStr value)) with
           | Some p => Fixed (PStr p)
           | None => phone
           end)
          bot_token
    end
  end.

(** The phone once the loop above has ended without a bot token: it is no
    longer callable there ([resolve_phone_fixed] below). *)
Definition fixed_value {F : Type} (a : Arg F) : PyVal :=
  match a with
  | Fixed v => v
  | Callable _ => PNone
  end.

(** The local variables of [_start] that the code loop leaves behind. *)
Record CodeLoopExit : Type := {
  me : option SignInResult;
  attempts : Z;
  two_step_detected : bool;
  sign_up_branch : bool
}.

(** The body of the [try] of the code loop. *)
Definition code_attempt (fuel : nat) (phone : PyVal)
    (code_callback : Callback Env) (first_name last_name : string)
    (sign_up_now : bool) : M SignInResult :=
  value <- call_callback ForCode code_callback ;;
  (* Since sign-in with no code works (it sends the code)
     we must double-check that here. *)
  if negb (str_truthy value) then raise (RPC PhoneCodeEmptyError)
  else if sign_up_now then
    u <- sign_up (PStr value) first_name last_name PNone None ;;
    ret (RUser u)
  else
    (* Raises SessionPasswordNeededError if 2FA enabled *)
    sign_in fuel phone (PStr value) PNone PNone None.

(** How one iteration of the code loop ends: [break] with the values of
    [me] and [two_step_detected], or the end of the body, with the value of
    [sign_up] for the next iteration. *)
Inductive LoopStep : Type :=
| Break (me : option SignInResult) (two_step_detected : bool)
| Continue (sign_up_next : bool).

(** One iteration of the code loop: the [try] with its [except] clauses. *)
Definition code_iteration (fuel : nat) (phone : PyVal)
    (code_callback : Callback Env) (first_name last_name : string)
    (sign_up_now : bool) : M LoopStep :=
  fun w =>
    match code_attempt fuel phone code_callback first_name last_name
            sign_up_now w with
    | (Ok me, w1) => (Ok (Break (Some me) false), w1)
    | (Raise (RPC SessionPasswordNeededError), w1) =>
      (Ok (Break None true), w1)
    | (Raise (RPC PhoneNumberOccupiedError), w1) => (Ok (Continue false), w1)
    | (Raise (RPC PhoneNumberUnoccupiedError), w1) => (Ok (Continue true), w1)
    | (Raise (RPC PhoneCodeEmptyError), w1)
    | (Raise (RPC PhoneCodeExpiredError), w1)
    | (Raise (RPC PhoneCodeHashEmptyError), w1)
    | (Raise (RPC PhoneCodeInvalidError), w1) =>
      (print_stderr "Invalid code. Please try again." ;;;
       ret (Continue sign_up_now)) w1
    | (Raise e, w1) => (Raise e, w1)
    | (OutOfFuel, w1) => (OutOfFuel, w1)
    end.

(** [while attempts < max_attempts: ... else: raise RuntimeError(...)].
    Every iteration that does not leave the loop adds one to [attempts], so
    [loop_fuel = max_attempts - attempts] iterations are enough. *)
Fixpoint code_loop (loop_fuel fuel : nat) (phone : PyVal)
    (code_callback : Callback Env) (first_name last_name : string)
    (max_attempts attempts : Z) (sign_up_now : bool) : M CodeLoopExit :=
  if (attempts <? max_attempts)%Z then
    match loop_fuel with
    | O => out_of_fuel
    | S loop_fuel' =>
      step <- code_iteration fuel phone code_callback first_name last_name
                sign_up_now ;;
      match step with
      | Break me two_step =>
        ret {| me := me; attempts := attempts;
               two_step_detected := two_step;
               sign_up_branch := sign_up_now |}
      | Continue sign_up_next =>
        code_loop loop_fuel' fuel phone code_callback first_name last_name
          max_attempts (attempts + 1) sign_up_next
      end
    end
  else
    raise (RuntimeError
             (str_of_int max_attempts
              +:+ " consecutive sign-in attempts failed. Aborting")).

(** [for _ in range(n): ... else: raise PasswordHashInvalidError(None)]. *)
Fixpoint password_loop (n fuel : nat) (phone : PyVal)
    (password : Callback Env) : M SignInResult :=
  match n with
  | O => raise (RPC PasswordHashInvalidError)
  | S n' =>
    catch
      (value <- call_callback ForPassword password ;;
       sign_in fuel phone PNone (PStr value) PNone None)
      (fun e =>
         match e with
         | RPC PasswordHashInvalidError =>
           print_stderr "Invalid password. Please try again" ;;;
           password_loop n' fuel phone password
         | _ => raise e
         end)
  end.

(** [if two_step_detected: ...]: the password phase of [_start]. *)
Definition password_phase (fuel : nat) (phone : PyVal)
    (password : Arg (Callback Env)) (max_attempts : Z) : M SignInResult :=
  if negb (arg_truthy password) then
    raise (ValueError
      ("Two-step verification is enabled for this account. "
       +:+ "Please provide the 'password' argument to 'start()'."))
  else
    match password with
    | Callable cb => password_loop (Z.to_nat max_attempts) fuel phone cb
    | Fixed v => sign_in fuel phone PNone v PNone None
    end.

(** The end of [_start]: the name of the signed in user is printed. *)
Definition print_signed_in (me : option SignInResult) : M unit :=
  let signed := "Signed in successfully as" in
  let name := get_display_name me in
  fun w =>
    let line := signed +:+ " " +:+ name in
    if stdout_encodable line then (Ok tt, set_stdout (stdout w ++ [line]) w)
    else
      (* Some terminals don't support certain characters *)
      (Ok tt, set_stdout (stdout w ++ [signed +:+ " " +:+ ascii_only name]) w).

(** [_start] after the code loop: the password phase when two-step
    verification was detected, then the line that names who signed in. *)
Definition finish_sign_in (fuel : nat) (phone : PyVal)
    (password : Arg (Callback Env)) (max_attempts : Z) (exit : CodeLoopExit)
  : M unit :=
  me <- (if two_step_detected exit then
           r <- password_phase fuel phone password max_attempts ;;
           ret (Some r)
         else ret (me exit)) ;;
  (* We won't reach here if any step failed (exit by exception) *)
  print_signed_in me.

(** [_start] from [me = None] on: the flow for a phone number. *)
Definition phone_flow (fuel : nat) (phone : PyVal)
    (password : Arg (Callback Env)) (force_sms : bool)
    (code_callback : Callback Env) (first_name last_name : string)
    (max_attempts : Z) : M unit :=
  sent_code <- send_code_request fuel phone force_sms ;;
  let sign_up_now := negb (phone_registered sent_code) in
  exit <- code_loop (Z.to_nat max_attempts) fuel phone code_callback
            first_name last_name max_attempts 0 sign_up_now ;;
  finish_sign_in fuel phone password max_attempts exit.

(** [_start]; the result [tt] stands for [return self]. *)
Definition _start (fuel : nat) (phone password : Arg (Callback Env))
    (bot_token : PyVal) (force_sms : bool) (code_callback : Callback Env)
    (first_name last_name : string) (max_attempts : Z) : M unit :=
  (fun w => if negb (is_connected w) then connect w else ret tt w) ;;;
  authorized <- is_user_authorized ;;
  if authorized then ret tt
  else
    pb <- (if negb (truthy bot_token) then
             (* Turn the callable into a valid phone number (or bot token) *)
             resolve_phone fuel phone bot_token
           else ret (phone, bot_token)) ;;
    let phone := fst pb in
    let bot_token := snd pb in
    if truthy bot_token then
      sign_in fuel PNone PNone PNone bot_token None ;;;
      ret tt
    else
      phone_flow fuel (fixed_value phone) password force_sms code_callback
        first_name last_name max_attempts.

(** [start]: the validation of the arguments, then [_start] (the coroutine
    is run to completion). A [code_callback] that is [None] is replaced by
    [input]. *)
Definition start (fuel : nat) (phone password : Arg (Callback Env))
    (bot_token : PyVal) (force_sms : bool)
    (code_callback : Arg (Callback Env))
    (first_name last_name : string) (max_attempts : Z) : M unit :=
  match
    match code_callback with
    | Fixed PNone =>
      inr (fun e =>
             let '(v, e') := input "Please enter the code you received: " e in
             (Immediate v, e'))
    | Fixed _ =>
      inl (ValueError
             ("The code_callback parameter needs to be a callable "
              +:+ "function that returns the code you received by Telegram."))
    | Callable cb => inr cb
    end
  with
  | inl e => raise e
  | inr code_callback =>
    if negb (arg_truthy phone) && negb (truthy bot_token) then
      raise (ValueError "No phone number or bot token provided.")
    else if arg_truthy phone && truthy bot_token && negb (callable phone) then
      raise (ValueError ("Both a phone and a bot token provided, "
                         +:+ "must only provide one of either"))
    else
      _start fuel phone password bot_token force_sms code_callback
        first_name last_name max_attempts
  end.

End Auth.

(** ** A scripted environment, to run the methods on concrete inputs *)

Module Demo.

(** What the caller will type, what the remote will answer to the requests
    that sign in, and the bytes the random source will give. *)
Record Script : Type := {
  answers : list string;
  sign_replies : list (RPCError + Authorization);
  entropy : list byte
}.

(** The caller's callback: the next answer of the script. *)
Definition ask : Callback Script :=
  fun e =>
    match answers e with
    | [] => (Immediate "", e)
    | a :: rest =>
      (Immediate a,
       {| answers := rest; sign_replies := sign_replies e;
          entropy := entropy e |})
    end.

(** The same callback as a coroutine function: the answer is awaited. *)
Definition ask_later : Callback Script :=
  fun e =>
    (Awaitable
       (fun e =>
          match answers e with
          | [] => ("", e)
          | a :: rest =>
            (a, {| answers := rest; sign_replies := sign_replies e;
                   entropy := entropy e |})
          end),
     e).

(** A callback that always gives the same answer. *)
Definition always (v : string) : Callback Script :=
  fun e => (Immediate v, e).

(** The remote answers the sign-in requests as the script says. *)
Definition scripted : Script -> (RPCError + Authorization) * Script :=
  fun e =>
    match sign_replies e with
    | [] => (inl PhoneCodeInvalidError, e)
    | r :: rest =>
      (r, {| answers := answers e; sign_replies := rest;
             entropy := entropy e |})
    end.

(** The remote answers every sign-in request with the same error. *)
Definition rejecting (err : RPCError)
  : Script -> (RPCError + Authorization) * Script :=
  fun e => (inl err, e).

Definition alice : User :=
  {| user_id := 7; access_hash := 99; bot := None; first_name_of := "Alice" |}.

Definition descriptor : Password :=
  {| has_password := true;
     current_algo := None;
     new_algo := {| salt1 := [x01; x02]; salt2 := [x03]; algo_g := 3;
                    algo_p := [x05] |};
     pwd_hint := "hint" |}.

(** The remote: the code is sent with hash ["h1"] and resent with hash
    ["h2"], the phone is registered or not as [registered] says, the
    requests that sign in are answered by [auth], the log out fails when
    [logout_error] names an error, and the password settings ask for the
    confirmation of the email when [confirm_email] is set. *)
Definition demo_remote (registered : bool)
    (auth : Script -> (RPCError + Authorization) * Script)
    (logout_error : option RPCError) (confirm_email : bool)
    (T : Type) (r : Request T) : Script -> (RPCError + T) * Script :=
  match r in Request T return Script -> (RPCError + T) * Script with
  | SendCodeRequest _ _ _ =>
    fun e => (inr {| phone_registered := registered;
                     phone_code_hash := "h1";
                     terms_of_service := None |}, e)
  | ResendCodeRequest _ _ =>
    fun e => (inr {| phone_registered := registered;
                     phone_code_hash := "h2";
                     terms_of_service := None |}, e)
  | SignInRequest _ _ _ => auth
  | SignUpRequest _ _ _ _ _ => auth
  | AcceptTermsOfServiceRequest _ => fun e => (inr true, e)
  | GetPasswordRequest => fun e => (inr descriptor, e)
  | CheckPasswordRequest _ => auth
  | ImportBotAuthorizationRequest _ _ _ _ => auth
  | LogOutRequest =>
    fun e =>
      match logout_error with
      | Some err => (inl err, e)
      | None => (inr true, e)
      end
  | UpdatePasswordSettingsRequest _ _ =>
    fun e =>
      if confirm_email then (inl (EmailUnconfirmedError 6), e)
      else (inr true, e)
  | ConfirmPasswordEmailRequest _ => fun e => (inr true, e)
  end.

Definition bytes_of_string (s : string) : list byte :=
  list_byte_of_string s.

(** The collaborators over the script; [who] is the current user, if any. *)
Definition collaborators (who : option User) (registered : bool)
    (auth : Script -> (RPCError + Authorization) * Script)
    (logout_error : option RPCError) (confirm_email : bool)
  : Collaborators Script :=
  {| remote := demo_remote registered auth logout_error confirm_email;
     get_me := fun w => (Ok who, w);
     is_user_authorized :=
       fun w => (Ok (match who with Some _ => true | None => false end), w);
     parse_phone :=
       fun v =>
         match v with
         | PNone => None
         | PStr s => if str_truthy s then Some s else None
         | PInt z => Some (str_of_int z)
         end;
     get_display_name :=
       fun me =>
         match me with
         | Some (RUser u) => first_name_of u
         | _ => ""
         end;
     get_input_peer := fun u => InputPeerUser (user_id u) (access_hash u);
     compute_check :=
       fun pwd v =>
         InputCheckPasswordSRP 1 (salt1 (new_algo pwd))
           (bytes_of_string (py_str v));
     compute_digest :=
       fun algo v => salt1 algo ++ bytes_of_string (py_str v);
     urandom :=
       fun n e =>
         (firstn (Z.to_nat n) (entropy e),
          {| answers := answers e; sign_replies := sign_replies e;
             entropy := skipn (Z.to_nat n) (entropy e) |});
     input :=
       fun _ e =>
         match answers e with
         | [] => ("", e)
         | a :: rest =>
           (a, {| answers := rest; sign_replies := sign_replies e;
                  entropy := entropy e |})
         end;
     stdout_encodable := fun _ => true;
     ascii_only := fun s => s |}.

(** A client that has not signed in, over the script [e]. *)
Definition fresh_client (e : Script) : Client Script :=
  {| api_id := 12345; api_hash := "0123456789abcdef"; parse_mode := None;
     _bot := None; _self_input_peer := None; _authorized := None;
     _phone := None; _phone_code_hash := ∅; _tos := None;
     _state_cache := {[ 0 := 17 ]}; connected := false;
     session := Some [x2a]; log := []; stderr := []; stdout := [];
     env := e |}.

Definition script (typed : list string)
    (replies : list (RPCError + Authorization)) : Script :=
  {| answers := typed; sign_replies := replies; entropy := [] |}.

(** A client that is signed in as [alice]. *)
Definition signed_in_client (e : Script) : Client Script :=
  {| api_id := 12345; api_hash := "0123456789abcdef"; parse_mode := None;
     _bot := Some false; _self_input_peer := Some (InputPeerUser 7 99);
     _authorized := Some true;
     _phone := Some "34600"; _phone_code_hash := {[ Some "34600" := "h1" ]};
     _tos := None;
     _state_cache := {[ 0 := 17 ]}; connected := true;
     session := Some [x2a]; log := []; stderr := []; stdout := [];
     env := e |}.

(** The client after the code was sent to 34600 with the hash ["h1"]. *)
Definition code_sent_client (e : Script) : Client Script :=
  {| api_id := 12345; api_hash := "0123456789abcdef"; parse_mode := None;
     _bot := None; _self_input_peer := None; _authorized := None;
     _phone := Some "34600"; _phone_code_hash := {[ Some "34600" := "h1" ]};
     _tos := None;
     _state_cache := {[ 0 := 17 ]}; connected := false;
     session := Some [x2a];
     log := [Invoked (SendCodeRequest (Some "34600") 12345
                        "0123456789abcdef")];
     stderr := []; stdout := [];
     env := e |}.

(** Nobody is signed in, the phone is registered, and the remote answers
    the requests that sign in as the script says. *)
Definition by_script : Collaborators Script :=
  collaborators None true scripted None false.

(** Nobody is signed in, and the remote rejects every code as invalid. *)
Definition invalid_codes : Collaborators Script :=
  collaborators None true (rejecting PhoneCodeInvalidError) None false.


(** [alice] is signed in. *)
Definition as_alice : Collaborators Script :=
  collaborators (Some alice) true scripted None false.

(** The log out fails. *)
Definition logout_refused : Collaborators Script :=
  collaborators (Some alice) true scripted
    (Some (OtherRPCError "AUTH_KEY_UNREGISTERED")) false.

End Demo.

(** ** What the properties speak about *)


(** A sign-in or sign-up request was sent. *)
Definition is_sign_request (ev : Event) : bool :=
  match ev with
  | Invoked r =>
    match r with
    | SignInRequest _ _ _ | SignUpRequest _ _ _ _ _ => true
    | _ => false
    end
  | Asked _ _ => false
  end.


(** A request that authenticates was sent: sign in, sign up, check of the
    password, import of a bot authorization. *)
Definition is_auth_request (ev : Event) : bool :=
  match ev with
  | Invoked r =>
    match r with
    | SignInRequest _ _ _ | SignUpRequest _ _ _ _ _
    | CheckPasswordRequest _ | ImportBotAuthorizationRequest _ _ _ _ => true
    | _ => false
    end
  | Asked _ _ => false
  end.


(** The caller was asked for the code. *)
Definition is_code_ask (ev : Event) : bool :=
  match ev with
  | Asked ForCode _ => true
  | _ => false
  end.

(** The caller was asked for the password. *)
Definition is_password_ask (ev : Event) : bool :=
  match ev with
  | Asked ForPassword _ => true
  | _ => false
  end.

(** How many events of a kind a run has added. *)
Definition count (f : Event -> bool) (evs : list Event) : nat :=
  length (List.filter f evs).

Section Notions.

Context {Env : Type} {collab : Collaborators Env}.

(** The client is not signed in: [get_me] finds no user, and touches
    nothing of the client but the environment. *)
Definition not_signed_in : Prop :=
  forall w : Client Env, exists e, get_me w = (Ok None, set_env e w).



(** The callback never yields the empty string. *)
Definition yields_nonempty (cb : Callback Env) : Prop :=
  forall e,
    match cb e with
    | (Immediate v, _) => str_truthy v = true
    | (Awaitable k, e1) => str_truthy (fst (k e1)) = true
    end.

(** The code was sent to [phone]: the client knows the phone [p] and holds
    a hash [h] for it, which is what [sign_in] and [sign_up] look up. *)
Definition code_sent (phone : PyVal) (p h : string) (w : Client Env) : Prop :=
  truthy_str (py_or (parse_phone phone) (_phone w)) = Some p
  /\ truthy_str (py_or (parse_phone PNone) (_phone w)) = Some p
  /\ truthy_str (_phone_code_hash w !! Some p) = Some h.


End Notions.

(** * Properties *)

Section Properties.

Context {Env : Type} {collab : Collaborators Env}.

Abbreviation Client := (Client Env).
Abbreviation M := (M Env).

(** ** The monad and the elementary statements *)

Lemma bind_ok {A B : Type} (m : M A) (k : A -> M B) (w w1 : Client) (a : A) :
  m w = (Ok a, w1) -> bind m k w = k a w1.
Proof. intros H. unfold bind. rewrite H. reflexivity. Qed.

Lemma bind_raise {A B : Type} (m : M A) (k : A -> M B) (w w1 : Client)
    (e : Exception) :
  m w = (Raise e, w1) -> bind m k w = (Raise e, w1).
Proof. intros H. unfold bind. rewrite H. reflexivity. Qed.

Lemma bind_bind {A B C : Type} (m : M A) (k : A -> M B) (k' : B -> M C)
    (w : Client) :
  bind (bind m k) k' w = bind m (fun a => bind (k a) k') w.
Proof.
  unfold bind. destruct (m w) as [[a | e |] w1]; reflexivity.
Qed.

Lemma invoke_ok {T : Type} (r : Request T) (w : Client) (x : T) (e' : Env) :
  remote T r (env w) = (inr x, e') ->
  invoke r w = (Ok x, set_env e' (set_log (log w ++ [Invoked r]) w)).
Proof. intros H. unfold invoke. rewrite H. reflexivity. Qed.

Lemma invoke_err {T : Type} (r : Request T) (w : Client) (err : RPCError)
    (e' : Env) :
  remote T r (env w) = (inl err, e') ->
  invoke r w
  = (Raise (RPC err), set_env e' (set_log (log w ++ [Invoked r]) w)).
Proof. intros H. unfold invoke. rewrite H. reflexivity. Qed.

Lemma set_env_same (w : Client) : set_env (env w) w = w.
Proof. destruct w. reflexivity. Qed.

(** ** Log out *)

(** C6. [log_out] sends the log-out request. When the request fails with an
    RPC error, the result is [False] and nothing of the client changes: the
    bot flag, the self peer, the authorized flag, the cached phone, hash and
    terms of service, the state cache, the connection and the session are
    as before. When it succeeds, the bot flag and the self peer are
    cleared, the authorized flag is [False], the state cache is reset, the
    client is disconnected, the session is deleted, and the result is
    [True]. *)
Theorem log_out_all_or_nothing (w : Client) :
  (forall err e',
      remote bool LogOutRequest (env w) = (inl err, e') ->
      log_out w
      = (Ok false, set_env e' (set_log (log w ++ [Invoked LogOutRequest]) w))
      /\ forall w', log_out w = (Ok false, w') ->
           _bot w' = _bot w
           /\ _self_input_peer w' = _self_input_peer w
           /\ _authorized w' = _authorized w
           /\ _phone w' = _phone w
           /\ _phone_code_hash w' = _phone_code_hash w
           /\ _tos w' = _tos w
           /\ _state_cache w' = _state_cache w
           /\ connected w' = connected w
           /\ session w' = session w)
  /\ (forall ok e',
         remote bool LogOutRequest (env w) = (inr ok, e') ->
         exists w',
           log_out w = (Ok true, w')
           /\ log w' = log w ++ [Invoked LogOutRequest]
           /\ _bot w' = None
           /\ _self_input_peer w' = None
           /\ _authorized w' = Some false
           /\ _state_cache w' = ∅
           /\ connected w' = false
           /\ session w' = None
           /\ _phone w' = _phone w
           /\ _phone_code_hash w' = _phone_code_hash w).
Proof.
  split.
  - intros err e' Hr.
    assert (Hout : log_out w
      = (Ok false, set_env e' (set_log (log w ++ [Invoked LogOutRequest]) w))).
    { unfold log_out. rewrite (invoke_err _ _ _ _ Hr). reflexivity. }
    split; [exact Hout|].
    intros w' Hw'. rewrite Hout in Hw'. inversion Hw'; subst w'.
    repeat split.
  - intros ok e' Hr. eexists. split.
    + unfold log_out. rewrite (invoke_ok _ _ _ _ Hr). reflexivity.
    + repeat split.
Qed.

(** ** The validation of [start] *)

(** C7, as amended. [start] fails with a [ValueError], before [_start] runs
    and so before any request is sent (the client is left as it was): when
    a [code_callback] is given that is not callable; when neither a phone
    nor a bot token is given; and when a bot token is given together with a
    phone that is a value, not a callable. *)
Theorem start_validation (fuel : nat) (phone password : Arg (Callback Env))
    (bot_token : PyVal) (force_sms : bool)
    (code_callback : Arg (Callback Env)) (first_name last_name : string)
    (max_attempts : Z) (w : Client) :
  (callable code_callback = false -> code_callback <> Fixed PNone ->
   exists msg,
     start fuel phone password bot_token force_sms code_callback
       first_name last_name max_attempts w = (Raise (ValueError msg), w))
  /\ (arg_truthy phone = false -> truthy bot_token = false ->
      exists msg,
        start fuel phone password bot_token force_sms code_callback
          first_name last_name max_attempts w = (Raise (ValueError msg), w))
  /\ (callable phone = false -> arg_truthy phone = true ->
      truthy bot_token = true ->
      exists msg,
        start fuel phone password bot_token force_sms code_callback
          first_name last_name max_attempts w = (Raise (ValueError msg), w)).
Proof.
  unfold start. repeat split.
  - intros Hc Hn. destruct code_callback as [[| s | z] | cb];
      try discriminate; try congruence; eexists; reflexivity.
  - intros Hp Hb. rewrite Hp, Hb.
    destruct code_callback as [[| s | z] | cb]; eexists; reflexivity.
  - intros Hc Hp Hb. rewrite Hc, Hp, Hb.
    destruct code_callback as [[| s | z] | cb]; eexists; reflexivity.
Qed.

(** ** A client that is already authorized *)

(** C9. When [get_me] finds the current user, [sign_in] and [sign_up]
    return that user and leave the client as [get_me] left it: nothing is
    sent, nothing is set. When [is_user_authorized] answers [True],
    [_start] returns the client as that call left it (connected first, if
    it was not): no phone is asked for and no code is requested. *)
Theorem authorized_client_short_circuits :
  (forall fuel phone code password bot_token hash (w w1 : Client) u,
      get_me w = (Ok (Some u), w1) ->
      sign_in fuel phone code password bot_token hash w = (Ok (RUser u), w1))
  /\ (forall code first_name last_name phone hash (w w1 : Client) u,
         get_me w = (Ok (Some u), w1) ->
         sign_up code first_name last_name phone hash w = (Ok u, w1))
  /\ (forall fuel phone password bot_token force_sms code_callback
             first_name last_name max_attempts (w w1 : Client),
         is_user_authorized (if connected w then w else set_connected true w)
         = (Ok true, w1) ->
         _start fuel phone password bot_token force_sms code_callback
           first_name last_name max_attempts w = (Ok tt, w1)).
Proof.
  repeat split.
  - intros. unfold sign_in. rewrite (bind_ok _ _ _ _ _ H). reflexivity.
  - intros. unfold sign_up. rewrite (bind_ok _ _ _ _ _ H). reflexivity.
  - intros. unfold _start, bind, is_connected, connect, modify, ret.
    destruct (connected w); simpl; rewrite H; reflexivity.
Qed.

(** ** What a run leaves of the client *)

Lemma count_app (f : Event -> bool) (a b : list Event) :
  count f (a ++ b) = (count f a + count f b)%nat.
Proof. unfold count. rewrite List.filter_app, length_app. reflexivity. Qed.

Lemma count_single (f : Event -> bool) (ev : Event) :
  count f [ev] = if f ev then 1%nat else 0%nat.
Proof. unfold count. simpl. destruct (f ev); reflexivity. Qed.

Section Preserves.

(** A relation between the client before and after a call that holds of
    every step and composes. *)
Variable R : Client -> Client -> Prop.
Hypothesis R_refl : forall w, R w w.
Hypothesis R_trans : forall a b c, R a b -> R b c -> R a c.

Definition preserves {A : Type} (m : M A) : Prop :=
  forall w r w', m w = (r, w') -> R w w'.

Lemma preserves_ret {A : Type} (a : A) : preserves (ret a).
Proof. intros w r w' H. inversion H; subst. apply R_refl. Qed.

Lemma preserves_raise {A : Type} (e : Exception) : preserves (@raise Env A e).
Proof. intros w r w' H. inversion H; subst. apply R_refl. Qed.

Lemma preserves_out_of_fuel {A : Type} : preserves (@out_of_fuel Env A).
Proof. intros w r w' H. inversion H; subst. apply R_refl. Qed.

Lemma preserves_bind {A B : Type} (m : M A) (k : A -> M B) :
  preserves m -> (forall a, preserves (k a)) -> preserves (bind m k).
Proof.
  intros Hm Hk w r w' H. unfold bind in H.
  destruct (m w) as [[a | e |] w1] eqn:E.
  - eapply R_trans; [eapply Hm; exact E | eapply Hk; exact H].
  - inversion H; subst. eapply Hm; exact E.
  - inversion H; subst. eapply Hm; exact E.
Qed.

Lemma preserves_catch {A : Type} (m : M A) (h : Exception -> M A) :
  preserves m -> (forall e, preserves (h e)) -> preserves (catch m h).
Proof.
  intros Hm Hh w r w' H. unfold catch in H.
  destruct (m w) as [[a | e |] w1] eqn:E.
  - inversion H; subst. eapply Hm; exact E.
  - eapply R_trans; [eapply Hm; exact E | eapply Hh; exact H].
  - inversion H; subst. eapply Hm; exact E.
Qed.

Lemma preserves_modify (f : Client -> Client) :
  (forall w, R w (f w)) -> preserves (modify f).
Proof. intros Hf w r w' H. inversion H; subst. apply Hf. Qed.

Lemma preserves_if {A : Type} (b : bool) (m1 m2 : M A) :
  preserves m1 -> preserves m2 -> preserves (if b then m1 else m2).
Proof. destruct b; auto. Qed.

End Preserves.

(** The log after a call is the log before it, with the events of the call
    at its end. *)
Definition log_grows (w w' : Client) : Prop :=
  exists evs, log w' = log w ++ evs.

Lemma log_grows_refl (w : Client) : log_grows w w.
Proof. exists []. symmetry. apply app_nil_r. Qed.

Lemma log_grows_trans (a b c : Client) :
  log_grows a b -> log_grows b c -> log_grows a c.
Proof.
  intros [e1 H1] [e2 H2]. exists (e1 ++ e2).
  rewrite H2, H1, app_assoc. reflexivity.
Qed.

(** A call that neither authenticates nor changes the authorized flag. *)
Definition no_authentication (w w' : Client) : Prop :=
  _authorized w' = _authorized w
  /\ _bot w' = _bot w
  /\ _self_input_peer w' = _self_input_peer w
  /\ exists evs, log w' = log w ++ evs /\ count is_auth_request evs = 0%nat.

Lemma no_authentication_refl (w : Client) : no_authentication w w.
Proof.
  repeat split. exists []. split; [symmetry; apply app_nil_r | reflexivity].
Qed.

Lemma no_authentication_trans (a b c : Client) :
  no_authentication a b -> no_authentication b c -> no_authentication a c.
Proof.
  intros (A1 & B1 & P1 & e1 & L1 & C1) (A2 & B2 & P2 & e2 & L2 & C2).
  repeat split; try congruence.
  exists (e1 ++ e2). split.
  - rewrite L2, L1, app_assoc. reflexivity.
  - rewrite count_app, C1, C2. reflexivity.
Qed.

Lemma invoke_no_authentication {T : Type} (r : Request T) :
  is_auth_request (Invoked r) = false ->
  preserves no_authentication (invoke r).
Proof.
  intros Hr w res w' H. unfold invoke in H.
  destruct (remote T r (env w)) as [[err | x] e1]; inversion H; subst;
    (repeat split; exists [Invoked r]; split;
     [reflexivity | rewrite count_single, Hr; reflexivity]).
Qed.

Ltac same_but_fields :=
  repeat split; exists []; split;
  [symmetry; apply app_nil_r | reflexivity].

Lemma send_code_request_no_authentication (fuel : nat) :
  forall phone force_sms,
    preserves no_authentication (send_code_request fuel phone force_sms).
Proof.
  induction fuel as [| fuel IH]; intros phone force_sms.
  - apply preserves_out_of_fuel, no_authentication_refl.
  - intros w r w' H. simpl in H.
    set (ph := py_or (parse_phone phone) (_phone w)) in *.
    assert (Hresend : forall h,
               preserves no_authentication
                 (result <- invoke (ResendCodeRequest ph h) ;;
                  modify (fun w =>
                    set_phone_code_hash
                      (<[ph := phone_code_hash result]> (_phone_code_hash w))
                      w) ;;;
                  ret result)).
    { intros h.
      apply preserves_bind;
        [exact no_authentication_trans
        | apply invoke_no_authentication; reflexivity |].
      intros sc. apply preserves_bind;
        [exact no_authentication_trans | |].
      - apply preserves_modify. intros w0. same_but_fields.
      - intros _. apply preserves_ret, no_authentication_refl. }
    destruct (truthy_str (_phone_code_hash w !! ph)) as [h |].
    + eapply no_authentication_trans; [| eapply (Hresend h); exact H].
      same_but_fields.
    + destruct (invoke (SendCodeRequest ph (api_id w) (api_hash w)) w)
        as [[sc | e |] w1] eqn:E.
      * assert (H1 : no_authentication w w1).
        { eapply invoke_no_authentication; [| exact E]. reflexivity. }
        eapply no_authentication_trans; [exact H1 |].
        destruct force_sms.
        -- eapply no_authentication_trans; [| eapply Hresend; exact H].
           same_but_fields.
        -- inversion H; subst. same_but_fields.
      * assert (H1 : no_authentication w w1).
        { eapply invoke_no_authentication; [| exact E]. reflexivity. }
        destruct e as [[] | | |]; try (inversion H; subst; exact H1).
        eapply no_authentication_trans; [exact H1 | eapply IH; exact H].
      * inversion H; subst.
        eapply invoke_no_authentication; [| exact E]. reflexivity.
Qed.

(** ** [sign_in] with a phone only *)

(** What [sign_in] makes of the outcome of [send_code_request]. *)
Definition as_sent_code (r : Outcome SentCode * Client)
  : Outcome SignInResult * Client :=
  match r with
  | (Ok sc, w) => (Ok (RSentCode sc), w)
  | (Raise e, w) => (Raise e, w)
  | (OutOfFuel, w) => (OutOfFuel, w)
  end.

(** C10. On a client that is not authorized ([get_me] finds no user),
    [sign_in] with a phone and without code and password is
    [send_code_request] of that phone, without [force_sms]: what it returns
    is the sent code and never a user, no request that authenticates is
    sent (whatever the bot token), and the authorized flag, the bot flag
    and the self peer are as [get_me] left them. *)
Theorem sign_in_phone_only_sends_code (fuel : nat)
    (phone code password bot_token : PyVal) (hash : option string)
    (w w1 : Client) :
  get_me w = (Ok None, w1) ->
  truthy phone = true -> truthy code = false -> truthy password = false ->
  sign_in fuel phone code password bot_token hash w
  = as_sent_code (send_code_request fuel phone false w1)
  /\ forall r w2,
       sign_in fuel phone code password bot_token hash w = (r, w2) ->
       (forall u, r <> Ok (RUser u))
       /\ (forall sc, r = Ok (RSentCode sc) ->
           send_code_request fuel phone false w1 = (Ok sc, w2))
       /\ _authorized w2 = _authorized w1
       /\ exists evs,
            log w2 = log w1 ++ evs /\ count is_auth_request evs = 0%nat.
Proof.
  intros Hme Hp Hc Hpw.
  assert (Heq : sign_in fuel phone code password bot_token hash w
                = as_sent_code (send_code_request fuel phone false w1)).
  { unfold sign_in. rewrite (bind_ok _ _ _ _ _ Hme), Hp, Hc, Hpw. simpl.
    unfold bind, as_sent_code.
    destruct (send_code_request fuel phone false w1) as [[sc | e |] w2];
      reflexivity. }
  split; [exact Heq |].
  intros r w2 H. rewrite Heq in H.
  destruct (send_code_request fuel phone false w1) as [[sc | e |] w3] eqn:E;
    simpl in H; inversion H; subst;
    pose proof (send_code_request_no_authentication _ _ _ _ _ _ E)
      as (HA & _ & _ & evs & HL & HC);
    (split; [intros u; discriminate |]);
    (split; [intros sc'; intros Hs; inversion Hs; subst; reflexivity
                     || discriminate |]);
    (split; [exact HA | exists evs; split; assumption]).
Qed.

(** ** [send_code_request] *)


Lemma truthy_str_Some (o : option string) (s : string) :
  o = Some s -> str_truthy s = true -> truthy_str o = Some s.
Proof. intros -> H. simpl. rewrite H. reflexivity. Qed.


(** ** The salt of a new password *)

Lemma invoke_log_grows {T : Type} (r : Request T) :
  preserves log_grows (invoke r).
Proof.
  intros w res w' H. unfold invoke in H.
  destruct (remote T r (env w)) as [[err | x] e1]; inversion H; subst;
    exists [Invoked r]; reflexivity.
Qed.

Lemma call_callback_log (p : Prompt) (cb : Callback Env) (w : Client) :
  exists v w',
    call_callback p cb w = (Ok v, w')
    /\ log w' = log w ++ [Asked p v]
    /\ stderr w' = stderr w
    /\ w' = set_log (log w ++ [Asked p v]) (set_env (env w') w).
Proof.
  unfold call_callback.
  destruct (cb (env w)) as [[v | k] e1].
  - exists v. eexists. repeat split.
  - destruct (k e1) as [v e2]. exists v. eexists. repeat split.
Qed.

Lemma call_callback_log_grows (p : Prompt) (cb : Callback Env) :
  preserves log_grows (call_callback p cb).
Proof.
  intros w r w' H.
  destruct (call_callback_log p cb w) as (v & w1 & E & L & _).
  rewrite E in H. inversion H; subst. exists [Asked p v]. exact L.
Qed.


(** ** The log only grows *)

Ltac grows :=
  repeat first
    [ apply preserves_ret, log_grows_refl
    | apply preserves_raise, log_grows_refl
    | apply preserves_out_of_fuel, log_grows_refl
    | apply invoke_log_grows
    | apply call_callback_log_grows
    | apply preserves_modify; intros ?; exists []; symmetry; apply app_nil_r
    | apply preserves_bind; [exact log_grows_trans | | intros ?]
    | apply preserves_catch; [exact log_grows_trans | | intros ?]
    | match goal with
      | |- preserves _ (if ?b then _ else _) => destruct b
      | |- preserves _ (match ?x with _ => _ end) => destruct x
      end ].

Lemma get_me_log_grows : not_signed_in -> preserves log_grows get_me.
Proof.
  intros Hme w r w' H. destruct (Hme w) as [e He]. rewrite He in H.
  inversion H; subst. exists []. symmetry. apply app_nil_r.
Qed.

Lemma parse_phone_and_hash_log_grows (phone : PyVal) (h : option string) :
  preserves log_grows (_parse_phone_and_hash phone h).
Proof.
  intros w r w' H. unfold _parse_phone_and_hash in H.
  destruct (truthy_str (py_or (parse_phone phone) (_phone w)));
    [destruct (truthy_str _) |]; inversion H; subst; apply log_grows_refl.
Qed.

Lemma on_login_log_grows (u : User) : preserves log_grows (_on_login u).
Proof. unfold _on_login. grows. Qed.

Lemma send_code_request_log_grows (fuel : nat) (phone : PyVal)
    (force_sms : bool) :
  preserves log_grows (send_code_request fuel phone force_sms).
Proof.
  intros w r w' H.
  destruct (send_code_request_no_authentication _ _ _ _ _ _ H)
    as (_ & _ & _ & evs & HL & _).
  exists evs. exact HL.
Qed.

Lemma write_tos_log_grows : preserves log_grows write_tos.
Proof.
  intros w r w' H. unfold write_tos in H.
  destruct (_tos w) as [tos |]; [destruct (str_truthy (tos_text tos)) |];
    inversion H; subst; exists []; symmetry; apply app_nil_r.
Qed.

Lemma accept_tos_log_grows : preserves log_grows accept_tos.
Proof.
  intros w r w' H. unfold accept_tos in H.
  destruct (_tos w) as [tos |].
  - revert H. generalize w r w'. fold (preserves log_grows
      (invoke (AcceptTermsOfServiceRequest (tos_id tos)) ;;; ret tt)).
    grows.
  - inversion H; subst. apply log_grows_refl.
Qed.

Lemma import_bot_log_grows (bot_token : PyVal) :
  preserves log_grows
    (fun w : Client =>
       invoke (ImportBotAuthorizationRequest 0 bot_token
                 (api_id w) (api_hash w)) w).
Proof. intros w r w' H. eapply invoke_log_grows. exact H. Qed.

Lemma sign_in_log_grows (fuel : nat) (phone code password bot_token : PyVal)
    (hash : option string) :
  not_signed_in ->
  preserves log_grows (sign_in fuel phone code password bot_token hash).
Proof.
  intros Hme. unfold sign_in.
  apply preserves_bind;
    [exact log_grows_trans | apply get_me_log_grows, Hme | intros [u |]].
  - grows.
  - destruct (truthy phone && negb (truthy code) && negb (truthy password)).
    + apply preserves_bind;
        [exact log_grows_trans | apply send_code_request_log_grows |].
      intros sc. grows.
    + apply preserves_bind; [exact log_grows_trans | | intros a].
      * destruct (truthy code).
        -- apply preserves_bind;
             [exact log_grows_trans
             | apply parse_phone_and_hash_log_grows | intros ph].
           grows.
        -- destruct (truthy password); [grows |].
           destruct (truthy bot_token);
             [apply import_bot_log_grows | grows].
      * apply preserves_bind;
          [exact log_grows_trans | apply on_login_log_grows | intros u].
        grows.
Qed.

Lemma sign_up_log_grows (code : PyVal) (first_name last_name : string)
    (phone : PyVal) (hash : option string) :
  not_signed_in ->
  preserves log_grows (sign_up code first_name last_name phone hash).
Proof.
  intros Hme. unfold sign_up.
  apply preserves_bind;
    [exact log_grows_trans | apply get_me_log_grows, Hme | intros [u |]].
  - grows.
  - apply preserves_bind;
      [exact log_grows_trans | apply write_tos_log_grows | intros _].
    apply preserves_bind;
      [exact log_grows_trans
      | apply parse_phone_and_hash_log_grows | intros ph].
    apply preserves_bind;
      [exact log_grows_trans | apply invoke_log_grows | intros a].
    apply preserves_bind;
      [exact log_grows_trans | apply accept_tos_log_grows | intros _].
    apply on_login_log_grows.
Qed.

Lemma code_attempt_log_grows (fuel : nat) (phone : PyVal)
    (cb : Callback Env) (first_name last_name : string) (su : bool) :
  not_signed_in ->
  preserves log_grows
    (code_attempt fuel phone cb first_name last_name su).
Proof.
  intros Hme. unfold code_attempt.
  apply preserves_bind;
    [exact log_grows_trans | apply call_callback_log_grows | intros v].
  destruct (negb (str_truthy v)); [grows |].
  destruct su.
  - apply preserves_bind;
      [exact log_grows_trans | apply sign_up_log_grows, Hme | intros u].
    grows.
  - apply sign_in_log_grows, Hme.
Qed.

Lemma code_iteration_log_grows (fuel : nat) (phone : PyVal)
    (cb : Callback Env) (first_name last_name : string) (su : bool) :
  not_signed_in ->
  preserves log_grows
    (code_iteration fuel phone cb first_name last_name su).
Proof.
  intros Hme w r w' H. unfold code_iteration in H.
  destruct (code_attempt fuel phone cb first_name last_name su w)
    as [o w1] eqn:E.
  pose proof (code_attempt_log_grows _ _ _ _ _ _ Hme _ _ _ E) as [evs HL].
  destruct o as [me | [[] | | |] |]; inversion H; subst;
    exists evs; exact HL.
Qed.

Lemma code_loop_log_grows (fuel : nat) (phone : PyVal)
    (cb : Callback Env) (first_name last_name : string) (N : Z) :
  not_signed_in ->
  forall lf a su,
    preserves log_grows
      (code_loop lf fuel phone cb first_name last_name N a su).
Proof.
  intros Hme. induction lf as [| lf IH]; intros a su; simpl;
    destruct (a <? N)%Z; try solve [grows].
  apply preserves_bind;
    [exact log_grows_trans | apply code_iteration_log_grows, Hme |].
  intros [me two | su']; [grows | apply IH].
Qed.

Lemma password_loop_log_grows (fuel : nat) (phone : PyVal)
    (cb : Callback Env) :
  not_signed_in ->
  forall n, preserves log_grows (password_loop n fuel phone cb).
Proof.
  intros Hme. induction n as [| n IH]; simpl; [grows |].
  apply preserves_catch; [exact log_grows_trans | |].
  - apply preserves_bind;
      [exact log_grows_trans | apply call_callback_log_grows | intros v].
    apply sign_in_log_grows, Hme.
  - intros [[] | | |]; try solve [grows].
    apply preserves_bind; [exact log_grows_trans | | intros _; apply IH].
    unfold print_stderr. grows.
Qed.

Lemma password_phase_log_grows (fuel : nat) (phone : PyVal)
    (password : Arg (Callback Env)) (N : Z) :
  not_signed_in ->
  preserves log_grows (password_phase fuel phone password N).
Proof.
  intros Hme. unfold password_phase.
  destruct (negb (arg_truthy password)); [grows |].
  destruct password as [v | cb].
  - apply sign_in_log_grows, Hme.
  - apply password_loop_log_grows, Hme.
Qed.

Lemma print_signed_in_log_grows (me : option SignInResult) :
  preserves log_grows (print_signed_in me).
Proof.
  intros w r w' H. unfold print_signed_in in H.
  destruct (stdout_encodable _); inversion H; subst;
    exists []; symmetry; apply app_nil_r.
Qed.

(** ** One submission of a code *)

(** The phone and the hashes the client holds are those of [w]. *)
Definition same_code (w w' : Client) : Prop :=
  _phone w' = _phone w /\ _phone_code_hash w' = _phone_code_hash w.

Lemma code_sent_same (phone : PyVal) (p h : string) (w w' : Client) :
  code_sent phone p h w -> same_code w w' -> code_sent phone p h w'.
Proof.
  intros (A & B & C) [P H]. unfold code_sent. rewrite P, H. auto.
Qed.

Lemma parse_phone_and_hash_sent (phone : PyVal) (p h : string) (w : Client) :
  code_sent phone p h w ->
  _parse_phone_and_hash phone None w = (Ok (p, h), w)
  /\ _parse_phone_and_hash PNone None w = (Ok (p, h), w).
Proof.
  intros (A & B & C). unfold _parse_phone_and_hash. rewrite A, B.
  change (py_or None (_phone_code_hash w !! Some p))
    with (_phone_code_hash w !! Some p).
  rewrite C. split; reflexivity.
Qed.

Lemma write_tos_prints (w : Client) :
  exists w',
    write_tos w = (Ok tt, w')
    /\ log w' = log w /\ env w' = env w /\ same_code w w'.
Proof.
  unfold write_tos.
  destruct (_tos w) as [tos |]; [destruct (str_truthy (tos_text tos)) |];
    eexists; (split; [reflexivity |]); repeat split.
Qed.

(** [sign_in] with a code, on a client that is not signed in and to whose
    phone the code was sent: the sign-in request goes out with the phone,
    the hash and the code; an error of the remote is raised with nothing of
    the client set. *)
Lemma sign_in_with_code (fuel : nat) (phone : PyVal) (p h v : string)
    (w : Client) :
  not_signed_in -> code_sent phone p h w -> str_truthy v = true ->
  exists e0 : Env,
    (forall err e',
        remote _ (SignInRequest p h v) e0 = (inl err, e') ->
        sign_in fuel phone (PStr v) PNone PNone None w
        = (Raise (RPC err),
           set_env e'
             (set_log (log w ++ [Invoked (SignInRequest p h v)])
                (set_env e0 w))))
    /\ (forall a e',
           remote _ (SignInRequest p h v) e0 = (inr a, e') ->
           exists w',
             sign_in fuel phone (PStr v) PNone PNone None w
             = (Ok (RUser (user a)), w')
             /\ log w' = log w ++ [Invoked (SignInRequest p h v)]).
Proof.
  intros Hme Hsent Hv. destruct (Hme w) as [e0 He0]. exists e0.
  assert (Hparse : _parse_phone_and_hash phone None (set_env e0 w)
                   = (Ok (p, h), set_env e0 w)).
  { apply parse_phone_and_hash_sent.
    eapply code_sent_same; [exact Hsent | split; reflexivity]. }
  assert (Hhead :
            sign_in fuel phone (PStr v) PNone PNone None w
            = bind (invoke (SignInRequest p h v))
                (fun result => u <- _on_login (user result) ;; ret (RUser u))
                (set_env e0 w)).
  { unfold sign_in. rewrite (bind_ok _ _ _ _ _ He0).
    cbn [truthy]. rewrite Hv. rewrite andb_false_r. cbn [andb negb].
    rewrite bind_bind, (bind_ok _ _ _ _ _ Hparse). reflexivity. }
  split.
  - intros err e' Hr. rewrite Hhead.
    rewrite (bind_raise _ _ _ _ _ (invoke_err _ (set_env e0 w) _ _ Hr)).
    reflexivity.
  - intros a e' Hr. rewrite Hhead.
    rewrite (bind_ok _ _ _ _ _ (invoke_ok _ (set_env e0 w) _ _ Hr)).
    eexists. split; reflexivity.
Qed.

(** The same for [sign_up]: the terms of service are written first, then
    the sign-up request goes out. *)
Lemma sign_up_with_code (phone : PyVal) (p h v first_name last_name : string)
    (w : Client) :
  not_signed_in -> code_sent phone p h w ->
  exists (e0 : Env) (wp : Client),
    log wp = log w /\ same_code w wp
    /\ (forall err e',
           remote _ (SignUpRequest p h v first_name last_name) e0
           = (inl err, e') ->
           sign_up (PStr v) first_name last_name PNone None w
           = (Raise (RPC err),
              set_env e'
                (set_log
                   (log w
                    ++ [Invoked (SignUpRequest p h v first_name last_name)])
                   wp)))
    /\ (forall a e',
           remote _ (SignUpRequest p h v first_name last_name) e0
           = (inr a, e') ->
           exists r w' rest,
             sign_up (PStr v) first_name last_name PNone None w = (r, w')
             /\ log w'
                = log w
                  ++ [Invoked (SignUpRequest p h v first_name last_name)]
                  ++ rest).
Proof.
  intros Hme Hsent. destruct (Hme w) as [e0 He0].
  destruct (write_tos_prints (set_env e0 w)) as (wp & Hwp & Lp & Ep & Sp).
  exists e0, wp.
  assert (Hsame : same_code w wp).
  { destruct Sp as [S1 S2]. split; [rewrite S1 | rewrite S2]; reflexivity. }
  assert (Hparse : _parse_phone_and_hash PNone None wp = (Ok (p, h), wp)).
  { apply (parse_phone_and_hash_sent phone).
    eapply code_sent_same; [exact Hsent | exact Hsame]. }
  assert (Hhead :
            sign_up (PStr v) first_name last_name PNone None w
            = bind (invoke (SignUpRequest p h v first_name last_name))
                (fun result => accept_tos ;;; _on_login (user result)) wp).
  { unfold sign_up. rewrite (bind_ok _ _ _ _ _ He0).
    rewrite (bind_ok _ _ _ _ _ Hwp).
    rewrite (bind_ok _ _ _ _ _ Hparse). reflexivity. }
  simpl in Lp, Ep.
  split; [exact Lp |]. split; [exact Hsame |]. split.
  - intros err e' Hr. rewrite Hhead.
    rewrite <- Ep in Hr. rewrite (bind_raise _ _ _ _ _ (invoke_err _ _ _ _ Hr)).
    rewrite Lp. reflexivity.
  - intros a e' Hr. rewrite Hhead.
    rewrite <- Ep in Hr. rewrite (bind_ok _ _ _ _ _ (invoke_ok _ _ _ _ Hr)).
    match goal with
    | |- context [bind accept_tos ?k ?w0] =>
      destruct (bind accept_tos k w0) as [r w'] eqn:E
    end.
    assert (Hg : preserves log_grows
                   (accept_tos ;;; _on_login (user a))).
    { apply preserves_bind;
        [exact log_grows_trans | apply accept_tos_log_grows | intros _].
      apply on_login_log_grows. }
    destruct (Hg _ _ _ E) as [rest Hrest].
    exists r, w', rest. split; [reflexivity |].
    rewrite Hrest. simpl. rewrite Lp, <- app_assoc. reflexivity.
Qed.

(** ** An empty code *)

Lemma str_falsy_empty (v : string) : str_truthy v = false -> v = "".
Proof. destruct v; [reflexivity | discriminate]. Qed.

Lemma code_loop_step (lf fuel : nat) (phone : PyVal) (cb : Callback Env)
    (first_name last_name : string) (N a : Z) (su su' : bool)
    (w w' : Client) :
  (a < N)%Z ->
  code_iteration fuel phone cb first_name last_name su w
  = (Ok (Continue su'), w') ->
  code_loop (S lf) fuel phone cb first_name last_name N a su w
  = code_loop lf fuel phone cb first_name last_name N (a + 1) su' w'.
Proof.
  intros Ha Hstep. cbn [code_loop].
  apply Z.ltb_lt in Ha. rewrite Ha.
  rewrite (bind_ok _ _ _ _ _ Hstep). reflexivity.
Qed.

(** C4. When the code callback yields an empty value, the attempt raises
    [PhoneCodeEmptyError] itself: the only event of the iteration is the
    question to the caller, so no sign-in or sign-up request is sent. The
    iteration prints "Invalid code. Please try again." and ends, keeping the
    branch, and the loop goes on with one more attempt counted. *)
Theorem empty_code_rejected_locally (fuel : nat) (phone : PyVal)
    (cb : Callback Env) (first_name last_name : string) (su : bool)
    (w w1 : Client) (v : string) :
  call_callback ForCode cb w = (Ok v, w1) ->
  str_truthy v = false ->
  let reported :=
    set_stderr (stderr w ++ ["Invalid code. Please try again."]) w1 in
  code_attempt fuel phone cb first_name last_name su w
  = (Raise (RPC PhoneCodeEmptyError), w1)
  /\ code_iteration fuel phone cb first_name last_name su w
     = (Ok (Continue su), reported)
  /\ log reported = log w ++ [Asked ForCode ""]
  /\ count is_sign_request (log reported) = count is_sign_request (log w)
  /\ forall lf N a,
       (a < N)%Z ->
       code_loop (S lf) fuel phone cb first_name last_name N a su w
       = code_loop lf fuel phone cb first_name last_name N (a + 1) su
           reported.
Proof.
  intros Hcb Hv reported.
  destruct (call_callback_log ForCode cb w) as (v' & w1' & E & L & S & _).
  rewrite Hcb in E. inversion E; subst v' w1'.
  assert (Hatt : code_attempt fuel phone cb first_name last_name su w
                 = (Raise (RPC PhoneCodeEmptyError), w1)).
  { unfold code_attempt. rewrite (bind_ok _ _ _ _ _ Hcb), Hv. reflexivity. }
  assert (Hit : code_iteration fuel phone cb first_name last_name su w
                = (Ok (Continue su), reported)).
  { unfold code_iteration. rewrite Hatt. unfold reported. rewrite <- S.
    reflexivity. }
  assert (Hlog : log reported = log w ++ [Asked ForCode ""]).
  { unfold reported. simpl. rewrite L, (str_falsy_empty _ Hv). reflexivity. }
  repeat split; try assumption.
  - rewrite Hlog, count_app, count_single. simpl. lia.
  - intros lf N a Ha. apply code_loop_step; assumption.
Qed.

(** ** A remote that rejects every code *)




(** ** The budget of the code loop *)

Lemma print_signed_in_ok (me : option SignInResult) (w : Client) :
  exists w', print_signed_in me w = (Ok tt, w') /\ log w' = log w.
Proof.
  unfold print_signed_in.
  destruct (stdout_encodable _); eexists; split; reflexivity.
Qed.



(** ** The branch between sign-in and sign-up *)

Lemma finish_sign_in_log_grows (fuel : nat) (phone : PyVal)
    (password : Arg (Callback Env)) (N : Z) (exit : CodeLoopExit) :
  not_signed_in ->
  preserves log_grows (finish_sign_in fuel phone password N exit).
Proof.
  intros Hme. unfold finish_sign_in.
  apply preserves_bind;
    [exact log_grows_trans | | intros m; apply print_signed_in_log_grows].
  destruct (two_step_detected exit); [| grows].
  apply preserves_bind;
    [exact log_grows_trans | apply password_phase_log_grows, Hme |].
  intros r. grows.
Qed.

Lemma code_iteration_same_log (fuel : nat) (phone : PyVal)
    (cb : Callback Env) (first_name last_name : string) (su : bool)
    (w w1 : Client) (o : Outcome SignInResult) :
  code_attempt fuel phone cb first_name last_name su w = (o, w1) ->
  exists o' w2,
    code_iteration fuel phone cb first_name last_name su w = (o', w2)
    /\ log w2 = log w1.
Proof.
  intros E. unfold code_iteration. rewrite E.
  destruct o as [r | [[] | | |] |]; do 2 eexists; split; reflexivity.
Qed.

(** The request of an attempt: sign-up or sign-in, as the branch says. *)
Lemma code_attempt_submits (fuel : nat) (phone : PyVal) (p h : string)
    (cb : Callback Env) (first_name last_name : string) (su : bool)
    (w w1 : Client) (v : string) :
  not_signed_in -> code_sent phone p h w ->
  call_callback ForCode cb w = (Ok v, w1) -> str_truthy v = true ->
  exists r w' rest,
    code_attempt fuel phone cb first_name last_name su w = (r, w')
    /\ log w'
       = log w
         ++ [Asked ForCode v;
             Invoked (if su
                      then SignUpRequest p h v first_name last_name
                      else SignInRequest p h v)]
         ++ rest.
Proof.
  intros Hme Hsent Hcb Hv.
  destruct (call_callback_log ForCode cb w) as (v' & w1' & E & L & S & W).
  rewrite Hcb in E. inversion E; subst v' w1'.
  assert (Hsent1 : code_sent phone p h w1).
  { eapply code_sent_same; [exact Hsent |]. rewrite W. split; reflexivity. }
  unfold code_attempt. rewrite (bind_ok _ _ _ _ _ Hcb), Hv. cbn [negb].
  destruct su.
  - destruct (sign_up_with_code phone p h v first_name last_name w1
                Hme Hsent1) as (e0 & wp & Lp & _ & Herr & Hok).
    destruct (remote _ (SignUpRequest p h v first_name last_name) e0)
      as [[err | a] e'] eqn:Hr.
    + rewrite (bind_raise _ _ _ _ _ (Herr _ _ eq_refl)).
      do 2 eexists. exists []. split; [reflexivity |].
      simpl. rewrite L, <- app_assoc. reflexivity.
    + destruct (Hok _ _ eq_refl) as (r & w' & rest & Hs & Hl).
      unfold bind. rewrite Hs.
      destruct r as [u | e |]; do 2 eexists; exists rest;
        (split; [reflexivity |]);
        rewrite Hl, L, <- app_assoc; reflexivity.
  - destruct (sign_in_with_code fuel phone p h v w1 Hme Hsent1 Hv)
      as (e0 & Herr & Hok).
    destruct (remote _ (SignInRequest p h v) e0) as [[err | a] e'] eqn:Hr.
    + rewrite (Herr _ _ eq_refl).
      do 2 eexists. exists []. split; [reflexivity |].
      simpl. rewrite L, <- app_assoc. reflexivity.
    + destruct (Hok _ _ eq_refl) as (w' & Hs & Hl).
      rewrite Hs. do 2 eexists. exists []. split; [reflexivity |].
      rewrite Hl, L, <- app_assoc. reflexivity.
Qed.

(** C3. Once the code has been sent to a client that is not signed in, the
    first request of the flow is the sign-up request exactly when the sent
    code says that the phone is not registered, and the sign-in request
    otherwise. In every iteration the branch decides the request; an
    attempt that fails with [PhoneNumberOccupiedError] ends the iteration
    with the branch set to sign-in, one that fails with
    [PhoneNumberUnoccupiedError] with the branch set to sign-up; in both
    cases the client is left as the failed attempt left it (nothing is
    printed) and the loop goes on with one more attempt counted. *)
Theorem occupancy_flips_branch (N : Z) (fuel : nat) (phone : PyVal)
    (password : Arg (Callback Env)) (force_sms : bool) (cb : Callback Env)
    (first_name last_name : string) (p h : string) :
  (1 <= N)%Z ->
  not_signed_in ->
  (forall (w w1 w1' : Client) sc v,
      send_code_request fuel phone force_sms w = (Ok sc, w1) ->
      code_sent phone p h w1 ->
      call_callback ForCode cb w1 = (Ok v, w1') -> str_truthy v = true ->
      exists r w' rest,
        phone_flow fuel phone password force_sms cb first_name last_name N w
        = (r, w')
        /\ log w'
           = log w1
             ++ [Asked ForCode v;
                 Invoked (if negb (phone_registered sc)
                          then SignUpRequest p h v first_name last_name
                          else SignInRequest p h v)]
             ++ rest)
  /\ (forall su (w w1 : Client) v,
         code_sent phone p h w ->
         call_callback ForCode cb w = (Ok v, w1) -> str_truthy v = true ->
         exists r w' rest,
           code_attempt fuel phone cb first_name last_name su w = (r, w')
           /\ log w'
              = log w
                ++ [Asked ForCode v;
                    Invoked (if su
                             then SignUpRequest p h v first_name last_name
                             else SignInRequest p h v)]
                ++ rest)
  /\ (forall su a lf (w w' : Client),
         (a < N)%Z ->
         code_attempt fuel phone cb first_name last_name su w
         = (Raise (RPC PhoneNumberOccupiedError), w') ->
         code_iteration fuel phone cb first_name last_name su w
         = (Ok (Continue false), w')
         /\ code_loop (S lf) fuel phone cb first_name last_name N a su w
            = code_loop lf fuel phone cb first_name last_name N (a + 1)
                false w')
  /\ (forall su a lf (w w' : Client),
         (a < N)%Z ->
         code_attempt fuel phone cb first_name last_name su w
         = (Raise (RPC PhoneNumberUnoccupiedError), w') ->
         code_iteration fuel phone cb first_name last_name su w
         = (Ok (Continue true), w')
         /\ code_loop (S lf) fuel phone cb first_name last_name N a su w
            = code_loop lf fuel phone cb first_name last_name N (a + 1)
                true w').
Proof.
  intros HN Hme. split; [| split; [| split]].
  - intros w w1 w1' sc v Hsend Hsent Hcb Hv.
    destruct (code_attempt_submits fuel phone p h cb first_name last_name
                (negb (phone_registered sc)) w1 w1' v Hme Hsent Hcb Hv)
      as (o & w2 & rest1 & Hatt & Hl1).
    destruct (code_iteration_same_log _ _ _ _ _ _ _ _ _ Hatt)
      as (o' & w3 & Hit & Hl3).
    unfold phone_flow. rewrite (bind_ok _ _ _ _ _ Hsend).
    destruct (Z.to_nat N) as [| n] eqn:HNn; [lia |].
    cbn [code_loop]. replace (0 <? N)%Z with true
      by (symmetry; apply Z.ltb_lt; lia).
    rewrite !bind_bind.
    match goal with
    | |- context [bind (code_iteration _ _ _ _ _ _) ?k w1] =>
      set (K := k);
      assert (HK : forall step, preserves log_grows (K step))
    end.
    { intros [m two | su']; unfold K.
      - apply preserves_bind; [exact log_grows_trans | grows |].
        intros exit. apply finish_sign_in_log_grows, Hme.
      - apply preserves_bind;
          [exact log_grows_trans | apply code_loop_log_grows, Hme |].
        intros exit. apply finish_sign_in_log_grows, Hme. }
    unfold bind at 1. rewrite Hit.
    destruct o' as [step | e |].
    + destruct (K step w3) as [r w'] eqn:EK.
      destruct (HK _ _ _ _ EK) as [rest2 Hl2].
      exists r, w', (rest1 ++ rest2). split; [reflexivity |].
      rewrite Hl2, Hl3, Hl1, <- !app_assoc. reflexivity.
    + do 2 eexists. exists rest1. split; [reflexivity |].
      rewrite Hl3, Hl1. reflexivity.
    + do 2 eexists. exists rest1. split; [reflexivity |].
      rewrite Hl3, Hl1. reflexivity.
  - intros su w w1 v Hsent Hcb Hv.
    exact (code_attempt_submits fuel phone p h cb first_name last_name
             su w w1 v Hme Hsent Hcb Hv).
  - intros su a lf w w' Ha Hatt.
    assert (Hit : code_iteration fuel phone cb first_name last_name su w
                  = (Ok (Continue false), w'))
      by (unfold code_iteration; rewrite Hatt; reflexivity).
    split; [exact Hit | apply code_loop_step; assumption].
  - intros su a lf w w' Ha Hatt.
    assert (Hit : code_iteration fuel phone cb first_name last_name su w
                  = (Ok (Continue true), w'))
      by (unfold code_iteration; rewrite Hatt; reflexivity).
    split; [exact Hit | apply code_loop_step; assumption].
Qed.

(** ** The password phase *)

Lemma call_callback_nonempty (pr : Prompt) (cb : Callback Env) (w w1 : Client)
    (v : string) :
  yields_nonempty cb ->
  call_callback pr cb w = (Ok v, w1) -> str_truthy v = true.
Proof.
  intros Hy H. unfold call_callback in H. specialize (Hy (env w)).
  destruct (cb (env w)) as [[v0 | k] e1].
  - inversion H; subst. exact Hy.
  - destruct (k e1) as [v0 e2]. inversion H; subst. exact Hy.
Qed.




(** ** The phone of [_start] *)

Lemma str_contains_truthy (c : ascii) (v : string) :
  str_contains c v = true -> str_truthy v = true.
Proof. destruct v; [discriminate | reflexivity]. Qed.

(** The loop that asks for the phone ends with a phone that is not
    callable or with a bot token, so that [fixed_value] is only applied to
    a phone that is a value. *)
Lemma resolve_phone_fixed (fuel : nat) :
  forall (phone ph : Arg (Callback Env)) (bot_token bt : PyVal)
         (w w' : Client),
    resolve_phone fuel phone bot_token w = (Ok (ph, bt), w') ->
    callable ph = false \/ truthy bt = true.
Proof.
  induction fuel as [| fuel IH]; intros phone ph bot_token bt w w' H;
    destruct phone as [v | cb]; cbn [resolve_phone] in H;
    try (inversion H; subst; left; reflexivity);
    try discriminate H.
  unfold bind in H.
  destruct (call_callback ForPhone cb w) as [[value | e |] w1];
    try discriminate H.
  destruct (str_contains ":" value) eqn:Hc.
  - inversion H; subst. right. simpl.
    apply (str_contains_truthy _ _ Hc).
  - eapply IH. exact H.
Qed.

(** ** What [send_code_request] leaves for the code loop *)

Lemma send_code_request_phone_and_hash (fuel : nat) :
  forall (phone : PyVal) (force_sms : bool) (w w1 : Client) (sc : SentCode)
         (p : string),
    parse_phone (PStr p) = Some p ->
    truthy_str (py_or (parse_phone phone) (_phone w)) = Some p ->
    send_code_request fuel phone force_sms w = (Ok sc, w1) ->
    _phone w1 = Some p
    /\ _phone_code_hash w1 !! Some p = Some (phone_code_hash sc).
Proof.
  assert (Hsome : forall o p, truthy_str o = Some p ->
                    o = Some p /\ str_truthy p = true).
  { intros [s |] p H; [| discriminate]. simpl in H.
    destruct (str_truthy s) eqn:E; [| discriminate].
    inversion H; subst. split; [reflexivity | exact E]. }
  induction fuel as [| fuel IH];
    intros phone force_sms w w1 sc p Hidem Hp H; [discriminate H |].
  destruct (Hsome _ _ Hp) as [Hph Ht].
  cbn [send_code_request] in H. rewrite Hph in H.
  assert (Hresend : forall (h : string) (w0 : Client),
             _phone w0 = Some p ->
             (result <- invoke (ResendCodeRequest (Some p) h) ;;
              modify (fun w =>
                set_phone_code_hash
                  (<[Some p := phone_code_hash result]> (_phone_code_hash w))
                  w) ;;;
              ret result) w0 = (Ok sc, w1) ->
             _phone w1 = Some p
             /\ _phone_code_hash w1 !! Some p = Some (phone_code_hash sc)).
  { intros h w0 H0 Hr. unfold bind, invoke in Hr.
    destruct (remote _ (ResendCodeRequest (Some p) h) (env w0))
      as [[err | sc2] e2]; [discriminate Hr |].
    inversion Hr; subst. split; [exact H0 | apply lookup_insert_eq]. }
  destruct (truthy_str (_phone_code_hash w !! Some p)) as [h |].
  - eapply Hresend; [| exact H]. reflexivity.
  - unfold invoke in H.
    destruct (remote _ (SendCodeRequest (Some p) (api_id w) (api_hash w))
                (env w)) as [[err | sc1] e1].
    + destruct err; try discriminate H.
      eapply IH; [exact Hidem | | exact H].
      cbn [of_opt]. rewrite Hidem. unfold py_or. simpl. rewrite Ht.
      simpl. rewrite Ht. reflexivity.
    + destruct force_sms.
      * eapply Hresend; [| exact H]. reflexivity.
      * inversion H; subst. split; [reflexivity | apply lookup_insert_eq].
Qed.

(** When [send_code_request] returns a code with a hash for a phone that
    normalizes to [p], the client is as the code loop needs it. *)
Lemma send_code_request_code_sent (fuel : nat) (phone : PyVal)
    (force_sms : bool) (w w1 : Client) (sc : SentCode) (p : string) :
  parse_phone PNone = None ->
  parse_phone (PStr p) = Some p ->
  truthy_str (py_or (parse_phone phone) (_phone w)) = Some p ->
  str_truthy (phone_code_hash sc) = true ->
  send_code_request fuel phone force_sms w = (Ok sc, w1) ->
  code_sent phone p (phone_code_hash sc) w1.
Proof.
  intros Hnone Hidem Hp Hh H.
  destruct (send_code_request_phone_and_hash fuel phone force_sms w w1 sc p
              Hidem Hp H) as [H1 H2].
  assert (Ht : str_truthy p = true).
  { destruct (py_or (parse_phone phone) (_phone w)) as [s |];
      [| discriminate]. simpl in Hp.
    destruct (str_truthy s) eqn:E; [| discriminate].
    inversion Hp; subst. exact E. }
  unfold code_sent. rewrite H1, H2, Hnone. repeat split.
  - unfold py_or in *. destruct (opt_truthy (parse_phone phone));
      [exact Hp | simpl; rewrite Ht; reflexivity].
  - simpl. rewrite Ht. reflexivity.
  - simpl. rewrite Hh. reflexivity.
Qed.

End Properties.

(** * The properties on concrete runs *)

Section Runs.

Import Demo.

(** ** Log out *)

Lemma log_out_all_or_nothing_witness :
  (log_out (collab := logout_refused) (signed_in_client (script [] []))
   = (Ok false,
      set_env (script [] [])
        (set_log [Invoked LogOutRequest] (signed_in_client (script [] [])))))
  /\ (exists w',
         log_out (collab := as_alice) (signed_in_client (script [] []))
         = (Ok true, w')
         /\ _authorized w' = Some false /\ session w' = None).
Proof.
  split.
  - apply (proj1 (log_out_all_or_nothing (collab := logout_refused)
                    (signed_in_client (script [] [])))
             (OtherRPCError "AUTH_KEY_UNREGISTERED") (script [] []) eq_refl).
  - destruct (proj2 (log_out_all_or_nothing (collab := as_alice)
                       (signed_in_client (script [] [])))
                true (script [] []) eq_refl)
      as (w' & H & _ & _ & _ & Ha & _ & _ & Hs & _).
    exists w'. repeat split; assumption.
Defined.

(** ** The validation of [start] *)

Lemma start_validation_witness :
  (exists msg,
      start (collab := by_script) 1 (Callable ask) (Callable ask) PNone false
        (Fixed (PStr "12345")) "New User" "" 3 (fresh_client (script [] []))
      = (Raise (ValueError msg), fresh_client (script [] [])))
  /\ (exists msg,
         start (collab := by_script) 1 (Fixed PNone) (Callable ask) PNone
           false (Callable ask) "New User" "" 3
           (fresh_client (script [] []))
         = (Raise (ValueError msg), fresh_client (script [] [])))
  /\ (exists msg,
         start (collab := by_script) 1 (Fixed (PStr "34600")) (Callable ask)
           (PStr "12:ab") false (Callable ask) "New User" "" 3
           (fresh_client (script [] []))
         = (Raise (ValueError msg), fresh_client (script [] []))).
Proof.
  split; [| split].
  - apply (proj1 (start_validation (collab := by_script) 1 (Callable ask)
                    (Callable ask) PNone false (Fixed (PStr "12345"))
                    "New User" "" 3 (fresh_client (script [] []))));
      [reflexivity | discriminate].
  - apply (proj1 (proj2 (start_validation (collab := by_script) 1
                           (Fixed PNone) (Callable ask) PNone false
                           (Callable ask) "New User" "" 3
                           (fresh_client (script [] [])))));
      reflexivity.
  - apply (proj2 (proj2 (start_validation (collab := by_script) 1
                           (Fixed (PStr "34600")) (Callable ask)
                           (PStr "12:ab") false (Callable ask)
                           "New User" "" 3 (fresh_client (script [] [])))));
      reflexivity.
Defined.

(** C7, the claim as stated fails: a phone given as a callable together
    with a bot token given as a value is not rejected; [start] goes on to
    [_start], which signs in with the bot token. *)
Lemma start_accepts_callable_phone_with_bot_token :
  arg_truthy (Callable (F := Callback Script) ask) = true
  /\ truthy (PStr "12:ab") = true
  /\ fst (start (collab := by_script) 1 (Callable ask) (Callable ask)
            (PStr "12:ab") false (Callable ask) "New User" "" 3
            (fresh_client (script [] [inr {| user := alice |}])))
     = Ok tt
  /\ log (snd (start (collab := by_script) 1 (Callable ask) (Callable ask)
                 (PStr "12:ab") false (Callable ask) "New User" "" 3
                 (fresh_client (script [] [inr {| user := alice |}]))))
     = [Invoked (ImportBotAuthorizationRequest 0 (PStr "12:ab") 12345
                   "0123456789abcdef")].
Proof. repeat split; vm_compute; reflexivity. Qed.

(** ** A client that is already authorized *)

Lemma authorized_client_short_circuits_witness :
  sign_in (collab := as_alice) 1 (PStr "34600") (PStr "12345") PNone PNone None
    (signed_in_client (script [] []))
  = (Ok (RUser alice), signed_in_client (script [] []))
  /\ sign_up (collab := as_alice) (PStr "12345") "New User" "" PNone None
       (signed_in_client (script [] []))
     = (Ok alice, signed_in_client (script [] []))
  /\ _start (collab := as_alice) 1 (Callable ask) (Callable ask) PNone false
       ask "New User" "" 3 (signed_in_client (script [] []))
     = (Ok tt, signed_in_client (script [] [])).
Proof.
  destruct (authorized_client_short_circuits (collab := as_alice))
    as (Hin & Hup & Hstart).
  split; [| split].
  - apply Hin. reflexivity.
  - apply Hup. reflexivity.
  - apply Hstart. reflexivity.
Defined.

(** ** [sign_in] with a phone only *)

Lemma sign_in_phone_only_sends_code_witness :
  sign_in (collab := by_script) 1 (PStr "34600") PNone PNone PNone None
    (fresh_client (script [] []))
  = as_sent_code
      (send_code_request (collab := by_script) 1 (PStr "34600") false
         (fresh_client (script [] []))).
Proof.
  apply (proj1 (sign_in_phone_only_sends_code (collab := by_script) 1
                  (PStr "34600") PNone PNone PNone None
                  (fresh_client (script [] [])) (fresh_client (script [] []))
                  eq_refl eq_refl eq_refl eq_refl)).
Defined.

(** ** [send_code_request] *)


(** ** The code loop *)

Lemma nobody_signed_in (registered : bool)
    (auth : Script -> (RPCError + Authorization) * Script)
    (logout_error : option RPCError) (confirm_email : bool) :
  not_signed_in
    (collab := collaborators None registered auth logout_error confirm_email).
Proof.
  intros w. exists (env w). simpl. rewrite set_env_same. reflexivity.
Defined.

Lemma code_sent_client_is_sent (e : Script) :
  send_code_request (collab := by_script) 1 (PStr "34600") false
    (fresh_client e)
  = (Ok {| phone_registered := true; phone_code_hash := "h1";
           terms_of_service := None |}, code_sent_client e).
Proof. vm_compute. reflexivity. Defined.

Lemma code_sent_client_sent (e : Script) :
  code_sent (collab := by_script) (PStr "34600") "34600" "h1"
    (code_sent_client e).
Proof. repeat split; vm_compute; reflexivity. Defined.

Lemma empty_code_rejected_locally_witness :
  code_iteration (collab := invalid_codes) 1 (PStr "34600") ask
    "New User" "" false (code_sent_client (script [""; "0000"] []))
  = (Ok (Continue false),
     set_stderr ["Invalid code. Please try again."]
       (set_log
          [Invoked (SendCodeRequest (Some "34600") 12345 "0123456789abcdef");
           Asked ForCode ""]
          (code_sent_client (script ["0000"] []))))
  /\ count is_sign_request
       [Invoked (SendCodeRequest (Some "34600") 12345 "0123456789abcdef");
        Asked ForCode ""]
     = 0%nat.
Proof.
  assert (Hcb : call_callback ForCode ask
                  (code_sent_client (script [""; "0000"] []))
                = (Ok "",
                   set_log
                     [Invoked (SendCodeRequest (Some "34600") 12345
                                 "0123456789abcdef");
                      Asked ForCode ""]
                     (code_sent_client (script ["0000"] []))))
    by reflexivity.
  destruct (empty_code_rejected_locally (collab := invalid_codes) 1
              (PStr "34600") ask "New User" "" false _ _ "" Hcb eq_refl)
    as (_ & Hit & _ & Hcount & _).
  split; [exact Hit | exact Hcount].
Defined.


(** ** The branch between sign-in and sign-up *)

(** The phone is registered, so the first request is the sign-in request;
    the remote answers that the phone is unoccupied, and the iteration ends
    with the branch set to sign-up. *)
Lemma occupancy_flips_branch_witness :
  (exists r w' rest,
      phone_flow (collab := by_script) 1 (PStr "34600") (Callable ask) false
        ask "New User" "" 2
        (fresh_client
           (script ["1111"; "2222"]
              [inl PhoneNumberUnoccupiedError; inr {| user := alice |}]))
      = (r, w')
      /\ log w'
         = [Invoked (SendCodeRequest (Some "34600") 12345 "0123456789abcdef")]
           ++ [Asked ForCode "1111";
               Invoked (SignInRequest "34600" "h1" "1111")]
           ++ rest)
  /\ code_iteration (collab := by_script) 1 (PStr "34600") ask "New User" ""
       false
       (code_sent_client
          (script ["1111"; "2222"]
             [inl PhoneNumberUnoccupiedError; inr {| user := alice |}]))
     = (Ok (Continue true),
        set_log
          [Invoked (SendCodeRequest (Some "34600") 12345 "0123456789abcdef");
           Asked ForCode "1111";
           Invoked (SignInRequest "34600" "h1" "1111")]
          (code_sent_client
             (script ["2222"] [inr {| user := alice |}]))).
Proof.
  destruct (occupancy_flips_branch (collab := by_script) 2 1 (PStr "34600")
              (Callable ask) false ask "New User" "" "34600" "h1"
              ltac:(lia) (nobody_signed_in _ _ _ _))
    as (Hfirst & _ & _ & Hflip).
  split.
  - apply (Hfirst _ _
             (set_log
                [Invoked (SendCodeRequest (Some "34600") 12345
                            "0123456789abcdef");
                 Asked ForCode "1111"]
                (code_sent_client
                   (script ["2222"]
                      [inl PhoneNumberUnoccupiedError;
                       inr {| user := alice |}])))
             _ "1111" (code_sent_client_is_sent _)
             (code_sent_client_sent _)); reflexivity.
  - apply (Hflip false 0 0%nat); [lia |].
    vm_compute. reflexivity.
Defined.

(** ** The password phase *)



(** ** The salt of a new password *)


(** ** Further runs *)

Lemma send_code_request_code_sent_witness :
  code_sent (collab := by_script) (PStr "34600") "34600" "h1"
    (code_sent_client (script ["1111"] [])).
Proof.
  apply (send_code_request_code_sent (collab := by_script) 1 (PStr "34600")
           false (fresh_client (script ["1111"] []))
           (code_sent_client (script ["1111"] []))
           {| phone_registered := true; phone_code_hash := "h1";
              terms_of_service := None |}
           "34600" eq_refl eq_refl eq_refl eq_refl
           (code_sent_client_is_sent _)).
Defined.

Lemma resolve_phone_fixed_witness :
  callable (Fixed (F := Callback Script) (PStr "34600")) = false
  \/ truthy PNone = true.
Proof.
  apply (resolve_phone_fixed (collab := by_script) 2 (Callable ask)
           (Fixed (PStr "34600")) PNone PNone
           (fresh_client (script ["34600"] []))
           (set_log [Asked ForPhone "34600"] (fresh_client (script [] [])))).
  vm_compute. reflexivity.
Defined.

(** The code loop checks that the code is not empty before it calls
    [sign_in] ("Since sign-in with no code works (it sends the code) we must
    double-check that here"); the password loop has no such check. When the
    password callback gives an empty value, [sign_in] sees a phone without
    code and password and resends the code: no password is checked, the
    loop ends, and [_start] prints that it signed in, with the client not
    authorized. *)
Example empty_password_resends_code :
  fst (phone_flow (collab := by_script) 1 (PStr "34600") (Callable ask) false
         ask "New User" "" 3
         (fresh_client
            (script ["1111"; ""] [inl SessionPasswordNeededError])))
  = Ok tt
  /\ log (snd (phone_flow (collab := by_script) 1 (PStr "34600")
                 (Callable ask) false ask "New User" "" 3
                 (fresh_client
                    (script ["1111"; ""] [inl SessionPasswordNeededError]))))
     = [Invoked (SendCodeRequest (Some "34600") 12345 "0123456789abcdef");
        Asked ForCode "1111";
        Invoked (SignInRequest "34600" "h1" "1111");
        Asked ForPassword "";
        Invoked (ResendCodeRequest (Some "34600") "h1")]
  /\ _authorized
       (snd (phone_flow (collab := by_script) 1 (PStr "34600")
               (Callable ask) false ask "New User" "" 3
               (fresh_client
                  (script ["1111"; ""] [inl SessionPasswordNeededError]))))
     = None
  /\ stdout
       (snd (phone_flow (collab := by_script) 1 (PStr "34600")
               (Callable ask) false ask "New User" "" 3
               (fresh_client
                  (script ["1111"; ""] [inl SessionPasswordNeededError]))))
     = ["Signed in successfully as "].
Proof. repeat split; vm_compute; reflexivity. Qed.

End Runs.

(** * Further properties of the methods *)

Section Methods.

Context {Env : Type} {collab : Collaborators Env}.

Abbreviation Client := (Client Env).
Abbreviation M := (M Env).

(** ** [_parse_phone_and_hash] *)

Lemma truthy_str_inv (o : option string) (s : string) :
  truthy_str o = Some s -> o = Some s /\ str_truthy s = true.
Proof.
  destruct o as [t |]; [| discriminate]. simpl.
  destruct (str_truthy t) eqn:E; [| discriminate].
  intros H; inversion H; subst. split; [reflexivity | exact E].
Qed.

(** [_parse_phone_and_hash] never changes the client. A pair it returns
    holds a phone and a hash that are not empty: the phone is the given one
    as normalized, or else the phone of the client; the hash is the given
    one, or else the hash cached for that phone. A given hash that is not
    empty is the one returned, whatever is cached. Without any phone it
    raises the [ValueError] that asks for [send_code_request], and with a
    phone but without any hash the one that asks for the hash. *)
Theorem parse_phone_and_hash_result (phone : PyVal) (hash : option string)
    (w : Client) :
  exists r,
    _parse_phone_and_hash phone hash w = (r, w)
    /\ r <> OutOfFuel
    /\ (forall p h,
           r = Ok (p, h) ->
           str_truthy p = true /\ str_truthy h = true
           /\ py_or (parse_phone phone) (_phone w) = Some p
           /\ py_or hash (_phone_code_hash w !! Some p) = Some h)
    /\ (forall p h,
           truthy_str (py_or (parse_phone phone) (_phone w)) = Some p ->
           hash = Some h -> str_truthy h = true ->
           r = Ok (p, h))
    /\ (truthy_str (py_or (parse_phone phone) (_phone w)) = None ->
        r = Raise (ValueError
                     "Please make sure to call send_code_request first."))
    /\ (forall p,
           truthy_str (py_or (parse_phone phone) (_phone w)) = Some p ->
           truthy_str (py_or hash (_phone_code_hash w !! Some p)) = None ->
           r = Raise (ValueError
                        "You also need to provide a phone_code_hash.")).
Proof.
  unfold _parse_phone_and_hash.
  destruct (truthy_str (py_or (parse_phone phone) (_phone w)))
    as [p |] eqn:Ep.
  - destruct (truthy_str (py_or hash (_phone_code_hash w !! Some p)))
      as [h |] eqn:Eh.
    + exists (Ok (p, h)). split; [reflexivity |].
      split; [discriminate |].
      destruct (truthy_str_inv _ _ Ep) as [Hp Tp].
      destruct (truthy_str_inv _ _ Eh) as [Hh Th].
      split; [| split; [| split]].
      * intros p' h' H. inversion H; subst. repeat split; assumption.
      * intros p' h' H Hhash Ht. inversion H; subst p'. subst hash.
        unfold py_or in Hh. simpl in Hh. rewrite Ht in Hh.
        inversion Hh; subst. reflexivity.
      * discriminate.
      * intros p' H Hn. inversion H; subst p'. rewrite Eh in Hn.
        discriminate.
    + eexists. split; [reflexivity |].
      split; [discriminate |].
      split; [| split; [| split]].
      * discriminate.
      * intros p' h' H Hhash Ht. inversion H; subst p'. subst hash.
        unfold py_or in Eh. simpl in Eh. rewrite Ht in Eh. simpl in Eh.
        rewrite Ht in Eh. discriminate.
      * discriminate.
      * reflexivity.
  - eexists. split; [reflexivity |].
    split; [discriminate |].
    split; [| split; [| split]]; try discriminate; reflexivity.
Qed.

(** ** [_on_login] *)

(** [bool(user.bot)]. *)
Definition is_bot (u : User) : bool :=
  match bot u with
  | Some b => b
  | None => false
  end.

(** [_on_login] returns the user it was given and records the login: the
    bot flag of the user, the input peer of the user, and the authorized
    flag; nothing is sent and nothing else of the client changes. Called
    again with the same user it changes nothing. *)
Theorem on_login_records_user (u : User) (w : Client) :
  exists w',
    _on_login u w = (Ok u, w')
    /\ _authorized w' = Some true
    /\ _bot w' = Some (is_bot u)
    /\ _self_input_peer w' = Some (get_input_peer u)
    /\ log w' = log w /\ env w' = env w
    /\ _phone w' = _phone w /\ _phone_code_hash w' = _phone_code_hash w
    /\ _tos w' = _tos w /\ session w' = session w
    /\ _on_login u w' = (Ok u, w').
Proof.
  eexists. split; [reflexivity |]. repeat split.
Qed.

(** ** [sign_in] *)

(** What a login records is as before. *)
Definition same_login (w w' : Client) : Prop :=
  _authorized w' = _authorized w
  /\ _bot w' = _bot w
  /\ _self_input_peer w' = _self_input_peer w.

Lemma same_login_refl (w : Client) : same_login w w.
Proof. repeat split. Qed.

Lemma same_login_trans (a b c : Client) :
  same_login a b -> same_login b c -> same_login a c.
Proof.
  intros (A1 & B1 & C1) (A2 & B2 & C2). repeat split; congruence.
Qed.

Lemma invoke_same_login {T : Type} (r : Request T) :
  preserves same_login (invoke r).
Proof.
  intros w o w' H. unfold invoke in H.
  destruct (remote T r (env w)) as [[err | x] e1]; inversion H; subst;
    repeat split.
Qed.

Lemma parse_phone_and_hash_same (phone : PyVal) (hash : option string)
    (w w' : Client) (r : Outcome (string * string)) :
  _parse_phone_and_hash phone hash w = (r, w') -> w' = w.
Proof.
  unfold _parse_phone_and_hash.
  destruct (truthy_str (py_or (parse_phone phone) (_phone w))) as [p |];
    [destruct (truthy_str _) |];
    intros H; inversion H; reflexivity.
Qed.

(** The requests of [sign_in] up to the login. *)
Lemma sign_in_request_same_login (phone code password bot_token : PyVal)
    (hash : option string) :
  preserves same_login
    (if truthy code then
       ph <- _parse_phone_and_hash phone hash ;;
       invoke (SignInRequest (fst ph) (snd ph) (py_str code))
     else if truthy password then
       pwd <- invoke GetPasswordRequest ;;
       invoke (CheckPasswordRequest (compute_check pwd password))
     else if truthy bot_token then
       fun w : Client =>
         invoke (ImportBotAuthorizationRequest 0 bot_token
                   (api_id w) (api_hash w)) w
     else
       raise (ValueError
         ("You must provide a phone and a code the first time, "
          +:+ "and a password only if an RPCError was raised before."))).
Proof.
  destruct (truthy code); [| destruct (truthy password);
                              [| destruct (truthy bot_token)]].
  - apply preserves_bind; [exact same_login_trans | |].
    + intros w o w' H. rewrite (parse_phone_and_hash_same _ _ _ _ _ H).
      apply same_login_refl.
    + intros ph. apply invoke_same_login.
  - apply preserves_bind;
      [exact same_login_trans | apply invoke_same_login |].
    intros pwd. apply invoke_same_login.
  - intros w o w' H. eapply invoke_same_login. exact H.
  - apply preserves_raise, same_login_refl.
Qed.

(** [sign_in] records a login exactly when it returns a user. *)
Lemma sign_in_records_login (fuel : nat)
    (phone code password bot_token : PyVal) (hash : option string)
    (w w1 w' : Client) (r : Outcome SignInResult) :
  get_me w = (Ok None, w1) ->
  sign_in fuel phone code password bot_token hash w = (r, w') ->
  (forall u,
      r = Ok (RUser u) ->
      _authorized w' = Some true
      /\ _bot w' = Some (is_bot u)
      /\ _self_input_peer w' = Some (get_input_peer u))
  /\ ((forall u, r <> Ok (RUser u)) -> same_login w1 w').
Proof.
  intros Hme H. unfold sign_in in H. rewrite (bind_ok _ _ _ _ _ Hme) in H.
  destruct (truthy phone && negb (truthy code) && negb (truthy password)).
  - unfold bind in H.
    destruct (send_code_request fuel phone false w1) as [[sc | e |] w2] eqn:E;
      inversion H; subst;
      pose proof (send_code_request_no_authentication _ _ _ _ _ _ E)
        as (HA & HB & HP & _);
      (split; [intros u Hu; discriminate Hu | intros _; repeat split;
                                              assumption]).
  - unfold bind at 1 in H.
    match type of H with
    | context [match ?m w1 with _ => _ end] =>
      destruct (m w1) as [[a | e |] w2] eqn:E;
        pose proof (sign_in_request_same_login phone code password
                      bot_token hash _ _ _ E) as (HA & HB & HP)
    end.
    + unfold bind, _on_login, modify, ret in H. inversion H; subst.
      split.
      * intros u Hu. inversion Hu; subst. repeat split.
      * intros Hn. exfalso. apply (Hn (user a)). reflexivity.
    + inversion H; subst.
      split; [intros u Hu; discriminate Hu | intros _; repeat split;
                                             assumption].
    + inversion H; subst.
      split; [intros u Hu; discriminate Hu | intros _; repeat split;
                                             assumption].
Qed.

(** On a client that is not authorized, [sign_in] records a login exactly
    when it returns a user: then the client is authorized, with the bot
    flag and the input peer of that user. When it returns the sent code or
    raises (an error of the remote, a missing phone or hash, arguments that
    say nothing), the authorized flag, the bot flag and the self peer are
    as [get_me] left them. *)
Theorem sign_in_login_on_success (fuel : nat)
    (phone code password bot_token : PyVal) (hash : option string)
    (w w1 w' : Client) (r : Outcome SignInResult) :
  get_me w = (Ok None, w1) ->
  sign_in fuel phone code password bot_token hash w = (r, w') ->
  (forall u,
      r = Ok (RUser u) ->
      _authorized w' = Some true
      /\ _bot w' = Some (is_bot u)
      /\ _self_input_peer w' = Some (get_input_peer u))
  /\ ((forall u, r <> Ok (RUser u)) -> same_login w1 w').
Proof.
  intros Hme H.
  exact (sign_in_records_login fuel phone code password bot_token hash
           w w1 w' r Hme H).
Qed.

(** Which request [sign_in] sends, on a client that is not authorized. A
    code wins over a password and a bot token: the phone and the hash are
    looked up and one sign-in request is sent, or the lookup fails and
    nothing is sent. Without a code, a password wins over a bot token: the
    descriptor is fetched and the check computed from it is sent. A bot
    token alone is imported with [flags=0] and the id and hash of the
    application. With nothing at all a [ValueError] is raised and nothing
    is sent. *)
Theorem sign_in_dispatch (fuel : nat) (phone code password bot_token : PyVal)
    (hash : option string) (w w1 : Client) :
  get_me w = (Ok None, w1) ->
  (truthy code = true ->
   (forall p h,
       _parse_phone_and_hash phone hash w1 = (Ok (p, h), w1) ->
       exists r w',
         sign_in fuel phone code password bot_token hash w = (r, w')
         /\ log w'
            = log w1 ++ [Invoked (SignInRequest p h (py_str code))])
   /\ (forall e,
          _parse_phone_and_hash phone hash w1 = (Raise e, w1) ->
          sign_in fuel phone code password bot_token hash w = (Raise e, w1)))
  /\ (truthy code = false -> truthy password = true ->
      exists r w' rest,
        sign_in fuel phone code password bot_token hash w = (r, w')
        /\ log w' = log w1 ++ [Invoked GetPasswordRequest] ++ rest
        /\ (forall err e,
               remote _ GetPasswordRequest (env w1) = (inl err, e) ->
               rest = [] /\ r = Raise (RPC err))
        /\ (forall pwd e,
               remote _ GetPasswordRequest (env w1) = (inr pwd, e) ->
               rest
               = [Invoked
                    (CheckPasswordRequest (compute_check pwd password))]))
  /\ (truthy phone = false -> truthy code = false ->
      truthy password = false -> truthy bot_token = true ->
      exists r w',
        sign_in fuel phone code password bot_token hash w = (r, w')
        /\ log w'
           = log w1
             ++ [Invoked (ImportBotAuthorizationRequest 0 bot_token
                            (api_id w1) (api_hash w1))])
  /\ (truthy phone = false -> truthy code = false ->
      truthy password = false -> truthy bot_token = false ->
      exists msg,
        sign_in fuel phone code password bot_token hash w
        = (Raise (ValueError msg), w1)).
Proof.
  intros Hme.
  assert (Hlogin : forall (a : Authorization) (w0 : Client),
             exists w',
               (u <- _on_login (user a) ;; ret (RUser u)) w0
               = (Ok (RUser (user a)), w')
               /\ log w' = log w0).
  { intros a w0. eexists. split; reflexivity. }
  split; [| split; [| split]].
  - intros Hc. split.
    + intros p h Hp. unfold sign_in. rewrite (bind_ok _ _ _ _ _ Hme).
      rewrite Hc. rewrite andb_false_r. cbn [andb].
      rewrite bind_bind, (bind_ok _ _ _ _ _ Hp). cbn [fst snd].
      destruct (remote _ (SignInRequest p h (py_str code)) (env w1))
        as [[err | a] e1] eqn:Er.
      * rewrite (bind_raise _ _ _ _ _ (invoke_err _ _ _ _ Er)).
        do 2 eexists. split; reflexivity.
      * rewrite (bind_ok _ _ _ _ _ (invoke_ok _ _ _ _ Er)).
        destruct (Hlogin a
                    (set_env e1
                       (set_log
                          (log w1
                           ++ [Invoked (SignInRequest p h (py_str code))])
                          w1))) as (w' & E & L).
        rewrite E. do 2 eexists. split; [reflexivity | exact L].
    + intros e Hp. unfold sign_in. rewrite (bind_ok _ _ _ _ _ Hme).
      rewrite Hc. rewrite andb_false_r. cbn [andb].
      rewrite bind_bind. apply bind_raise. exact Hp.
  - intros Hc Hp. unfold sign_in. rewrite (bind_ok _ _ _ _ _ Hme).
    rewrite Hc, Hp. rewrite andb_false_r.
    rewrite bind_bind.
    destruct (remote _ GetPasswordRequest (env w1)) as [[err | pwd] e1]
      eqn:Er.
    + rewrite (bind_raise _ _ _ _ _ (invoke_err _ _ _ _ Er)).
      do 2 eexists. exists []. split; [reflexivity |].
      split; [reflexivity |].
      split; [intros err' e' H; inversion H; subst; split; reflexivity
             | intros pwd' e' H; discriminate H].
    + rewrite (bind_ok _ _ _ _ _ (invoke_ok _ _ _ _ Er)).
      match goal with
      | |- context [bind (invoke ?rq) _ ?w0] =>
        destruct (remote _ rq (env w0)) as [[err | a] e2] eqn:Ec
      end.
      * rewrite (bind_raise _ _ _ _ _ (invoke_err _ _ _ _ Ec)).
        do 2 eexists.
        exists [Invoked (CheckPasswordRequest (compute_check pwd password))].
        split; [reflexivity |].
        split; [simpl; rewrite <- app_assoc; reflexivity |].
        split; [intros err' e' H; discriminate H
               | intros pwd' e' H; inversion H; subst; reflexivity].
      * rewrite (bind_ok _ _ _ _ _ (invoke_ok _ _ _ _ Ec)).
        match goal with
        | |- context [bind (_on_login (user a)) _ ?w0] =>
          destruct (Hlogin a w0) as (w' & E & L)
        end.
        rewrite E. do 2 eexists.
        exists [Invoked (CheckPasswordRequest (compute_check pwd password))].
        split; [reflexivity |].
        split; [rewrite L; simpl; rewrite <- app_assoc; reflexivity |].
        split; [intros err' e' H; discriminate H
               | intros pwd' e' H; inversion H; subst; reflexivity].
  - intros Hph Hc Hp Hb. unfold sign_in. rewrite (bind_ok _ _ _ _ _ Hme).
    rewrite Hph, Hc, Hp, Hb. cbn [andb].
    destruct (remote _ (ImportBotAuthorizationRequest 0 bot_token
                          (api_id w1) (api_hash w1)) (env w1))
      as [[err | a] e1] eqn:Er.
    + unfold bind at 1. rewrite (invoke_err _ _ _ _ Er).
      do 2 eexists. split; reflexivity.
    + unfold bind at 1. rewrite (invoke_ok _ _ _ _ Er).
      match goal with
      | |- context [bind (_on_login (user a)) _ ?w0] =>
        destruct (Hlogin a w0) as (w' & E & L)
      end.
      rewrite E. do 2 eexists. split; [reflexivity | exact L].
  - intros Hph Hc Hp Hb. unfold sign_in. rewrite (bind_ok _ _ _ _ _ Hme).
    rewrite Hph, Hc, Hp, Hb. cbn [andb]. eexists. reflexivity.
Qed.

(** ** [sign_up] *)

Lemma write_tos_same_login : preserves same_login write_tos.
Proof.
  intros w r w' H. unfold write_tos in H.
  destruct (_tos w) as [tos |]; [destruct (str_truthy (tos_text tos)) |];
    inversion H; subst; repeat split.
Qed.

Lemma write_tos_stderr (w : Client) :
  exists w',
    write_tos w = (Ok tt, w')
    /\ log w' = log w /\ env w' = env w /\ _tos w' = _tos w
    /\ _phone w' = _phone w /\ _phone_code_hash w' = _phone_code_hash w
    /\ stderr w'
       = stderr w
         ++ match _tos w with
            | Some tos =>
              if str_truthy (tos_text tos) then
                [match parse_mode w with
                 | Some unparse => unparse (tos_text tos) (tos_entities tos)
                 | None => tos_text tos
                 end]
              else []
            | None => []
            end.
Proof.
  unfold write_tos.
  destruct (_tos w) as [tos |] eqn:Et;
    [destruct (str_truthy (tos_text tos)) |];
    eexists; (split; [reflexivity |]); repeat split;
    simpl; rewrite ?Et, ?app_nil_r; reflexivity.
Qed.

(** [sign_up] on a client that is not authorized, when the phone and the
    hash are found and the remote creates the account. The terms of service
    that were stored with the code are written to [sys.stderr] before the
    request when their text is not empty. Without stored terms the only
    request is the sign-up request, and the client is authorized as the
    new user. With stored terms the acceptance of the terms is sent after
    the sign-up request, with the id of the terms; when the remote accepts
    it the client is authorized as the new user, and when the remote
    rejects it that error is raised and the login is not recorded,
    although the account exists. *)
Theorem sign_up_accepts_terms (code : PyVal) (first_name last_name : string)
    (phone : PyVal) (hash : option string) (w w1 : Client) (p h : string)
    (a : Authorization) (e1 : Env) :
  get_me w = (Ok None, w1) ->
  truthy_str (py_or (parse_phone phone) (_phone w1)) = Some p ->
  truthy_str (py_or hash (_phone_code_hash w1 !! Some p)) = Some h ->
  remote _ (SignUpRequest p h (py_str code) first_name last_name) (env w1)
  = (inr a, e1) ->
  let request :=
    Invoked (SignUpRequest p h (py_str code) first_name last_name) in
  (_tos w1 = None ->
   exists w',
     sign_up code first_name last_name phone hash w = (Ok (user a), w')
     /\ log w' = log w1 ++ [request]
     /\ stderr w' = stderr w1
     /\ _authorized w' = Some true /\ _bot w' = Some (is_bot (user a)))
  /\ (forall tos,
         _tos w1 = Some tos ->
         (forall ok e2,
             remote _ (AcceptTermsOfServiceRequest (tos_id tos)) e1
             = (inr ok, e2) ->
             exists w',
               sign_up code first_name last_name phone hash w
               = (Ok (user a), w')
               /\ log w'
                  = log w1
                    ++ [request;
                        Invoked (AcceptTermsOfServiceRequest (tos_id tos))]
               /\ _authorized w' = Some true
               /\ (str_truthy (tos_text tos) = true ->
                   exists line, stderr w' = stderr w1 ++ [line]))
         /\ (forall err e2,
                remote _ (AcceptTermsOfServiceRequest (tos_id tos)) e1
                = (inl err, e2) ->
                exists w',
                  sign_up code first_name last_name phone hash w
                  = (Raise (RPC err), w')
                  /\ log w'
                     = log w1
                       ++ [request;
                           Invoked
                             (AcceptTermsOfServiceRequest (tos_id tos))]
                  /\ same_login w1 w')).
Proof.
  intros Hme Hp Hh Hr request.
  destruct (write_tos_stderr w1) as (wp & Hw & Lp & Ep & Tp & Pp & Cp & Sp).
  assert (Hparse : _parse_phone_and_hash phone hash wp = (Ok (p, h), wp)).
  { unfold _parse_phone_and_hash. rewrite Pp, Hp, Cp, Hh. reflexivity. }
  assert (Hsign : invoke (SignUpRequest p h (py_str code) first_name
                            last_name) wp
                  = (Ok a,
                     set_env e1
                       (set_log (log wp ++ [request]) wp))).
  { apply invoke_ok. rewrite Ep. exact Hr. }
  assert (Hhead :
            sign_up code first_name last_name phone hash w
            = (accept_tos ;;; _on_login (user a))
                (set_env e1 (set_log (log wp ++ [request]) wp))).
  { unfold sign_up. rewrite (bind_ok _ _ _ _ _ Hme).
    rewrite (bind_ok _ _ _ _ _ Hw).
    rewrite (bind_ok _ _ _ _ _ Hparse). cbn [fst snd].
    rewrite (bind_ok _ _ _ _ _ Hsign). reflexivity. }
  split.
  - intros Hnone. rewrite Hhead.
    eexists. split.
    { unfold bind at 1, accept_tos. cbn [_tos set_env set_log].
      rewrite Tp, Hnone. reflexivity. }
    simpl. rewrite Lp, Sp, Hnone, app_nil_r. repeat split.
  - intros tos Htos. split.
    + intros ok e2 Ha. rewrite Hhead.
      eexists. split.
      { unfold bind at 1, accept_tos. cbn [_tos set_env set_log].
        rewrite Tp, Htos.
        rewrite (bind_ok _ _ _ _ _
                   (invoke_ok _
                      (set_env e1 (set_log (log wp ++ [request]) wp))
                      _ _ Ha)).
        reflexivity. }
      simpl. rewrite Lp. split; [rewrite <- app_assoc; reflexivity |].
      split; [reflexivity |].
      intros Ht. rewrite Sp, Htos, Ht. eexists. reflexivity.
    + intros err e2 Ha. rewrite Hhead.
      eexists. split.
      { unfold bind at 1, accept_tos. cbn [_tos set_env set_log].
        rewrite Tp, Htos.
        rewrite (bind_raise _ _ _ _ _
                   (invoke_err _
                      (set_env e1 (set_log (log wp ++ [request]) wp))
                      _ _ Ha)).
        reflexivity. }
      simpl. rewrite Lp. split; [rewrite <- app_assoc; reflexivity |].
      destruct (write_tos_same_login _ _ _ Hw) as (A & B & C).
      repeat split; assumption.
Qed.

(** ** [edit_2fa] *)

(** What [edit_2fa] sends and returns. With both passwords [None] the
    result is [False] and nothing is sent; an email without a callable
    callback is a [ValueError], nothing sent. Otherwise the descriptor is
    fetched and its salt refreshed, and one update request is sent: its
    proof of the old password is computed from the current password only
    when the account has a password and a current password is given (a
    current password given for an account without password is ignored),
    and its digest is empty when no new password is given. When the remote
    accepts the request the result is [True]. When it answers that the
    email is unconfirmed, the callback is called with the length of the
    code and the code it gives is sent for confirmation; without a
    callable callback this is a [TypeError]. Any other error of the remote
    is raised. The result is never [False] once the validation has
    passed. *)
Theorem edit_2fa_outcomes (current_password new_password : PyVal)
    (hint : string) (email : PyVal)
    (email_code_callback : Arg (@EmailCallback Env)) (w : Client) :
  (is_None new_password = true -> is_None current_password = true ->
   edit_2fa current_password new_password hint email email_code_callback w
   = (Ok false, w))
  /\ (is_None new_password && is_None current_password = false ->
      truthy email = true -> callable email_code_callback = false ->
      exists msg,
        edit_2fa current_password new_password hint email
          email_code_callback w = (Raise (ValueError msg), w))
  /\ (forall (pwd : Password) (e1 e2 : Env) (fresh : list byte),
         is_None new_password && is_None current_password = false ->
         truthy email && negb (callable email_code_callback) = false ->
         remote _ GetPasswordRequest (env w) = (inr pwd, e1) ->
         urandom 32 e1 = (fresh, e2) ->
         let refreshed := refresh_salt pwd fresh in
         let request :=
           UpdatePasswordSettingsRequest
             (if has_password pwd && truthy current_password
              then compute_check refreshed current_password
              else InputCheckPasswordEmpty)
             {| pis_new_algo := new_algo refreshed;
                pis_new_password_hash :=
                  if truthy new_password
                  then compute_digest (new_algo refreshed) new_password
                  else [];
                pis_hint := hint;
                pis_email := email |} in
         (forall ok e3,
             remote _ request e2 = (inr ok, e3) ->
             exists w',
               edit_2fa current_password new_password hint email
                 email_code_callback w = (Ok true, w')
               /\ log w'
                  = log w ++ [Invoked GetPasswordRequest; Invoked request])
         /\ (forall n e3 cb,
                remote _ request e2 = (inl (EmailUnconfirmedError n), e3) ->
                email_code_callback = Callable cb ->
                exists code r w',
                  edit_2fa current_password new_password hint email
                    email_code_callback w = (r, w')
                  /\ log w'
                     = log w
                       ++ [Invoked GetPasswordRequest; Invoked request;
                           Asked (ForEmailCode n) code;
                           Invoked (ConfirmPasswordEmailRequest code)]
                  /\ (r = Ok true \/ exists err, r = Raise (RPC err)))
         /\ (forall n e3 v,
                remote _ request e2 = (inl (EmailUnconfirmedError n), e3) ->
                email_code_callback = Fixed v ->
                exists msg w',
                  edit_2fa current_password new_password hint email
                    email_code_callback w = (Raise (TypeError msg), w'))
         /\ (forall err e3,
                remote _ request e2 = (inl err, e3) ->
                (forall n, err <> EmailUnconfirmedError n) ->
                exists w',
                  edit_2fa current_password new_password hint email
                    email_code_callback w = (Raise (RPC err), w')
                  /\ log w'
                     = log w
                       ++ [Invoked GetPasswordRequest; Invoked request])
         /\ (forall w',
                edit_2fa current_password new_password hint email
                  email_code_callback w <> (Ok false, w'))).
Proof.
  split; [| split].
  - intros Hn Hc. unfold edit_2fa. rewrite Hn, Hc. reflexivity.
  - intros Hv He Hc. unfold edit_2fa. rewrite Hv, He, Hc.
    eexists. reflexivity.
  - intros pwd e1 e2 fresh Hv Hemail Hget Hrand refreshed request.
    set (w1 := set_env e1 (set_log (log w ++ [Invoked GetPasswordRequest]) w)).
    set (w2 := set_env e2 w1).
    assert (Hu : os_urandom 32 w1 = (Ok fresh, w2)).
    { unfold os_urandom, w2, w1. simpl. rewrite Hrand. reflexivity. }
    assert (Hhead :
              edit_2fa current_password new_password hint email
                email_code_callback w
              = (catch (invoke request ;;; ret tt)
                   (fun e =>
                      match e with
                      | RPC (EmailUnconfirmedError code_length) =>
                        match email_code_callback with
                        | Callable cb =>
                          code <- call_callback (ForEmailCode code_length)
                                    (cb code_length) ;;
                          invoke (ConfirmPasswordEmailRequest code) ;;;
                          ret tt
                        | Fixed _ => raise (TypeError "object is not callable")
                        end
                      | _ => raise e
                      end) ;;;
                 ret true) w2).
    { unfold edit_2fa. rewrite Hv, Hemail.
      rewrite (bind_ok _ _ _ _ _ (invoke_ok _ _ _ _ Hget)).
      fold w1. rewrite (bind_ok _ _ _ _ _ Hu).
      unfold request, refreshed.
      replace (has_password (refresh_salt pwd fresh))
        with (has_password pwd) by reflexivity.
      destruct (has_password pwd), (truthy current_password) eqn:Hc;
        cbn [negb andb truthy]; rewrite ?Hc; reflexivity. }
    rewrite Hhead.
    assert (Hlog2 : log w2 = log w ++ [Invoked GetPasswordRequest])
      by reflexivity.
    assert (Henv2 : env w2 = e2) by reflexivity.
    clearbody w2. clear Hhead Hu.
    split; [| split; [| split; [| split]]].
    + intros ok e3 Hr. rewrite <- Henv2 in Hr.
      eexists. split.
      { unfold bind at 1, catch.
        rewrite (bind_ok _ _ _ _ _ (invoke_ok _ _ _ _ Hr)). reflexivity. }
      simpl. rewrite Hlog2, <- app_assoc. reflexivity.
    + intros n e3 cb Hr Hcb. rewrite <- Henv2 in Hr. subst email_code_callback.
      destruct (call_callback_log (ForEmailCode n) (cb n)
                  (set_env e3 (set_log (log w2 ++ [Invoked request]) w2)))
        as (code & w3 & Ecb & L3 & _).
      exists code.
      destruct (remote _ (ConfirmPasswordEmailRequest code) (env w3))
        as [[err | ok] e4] eqn:Ec.
      * do 2 eexists. split.
        { unfold bind at 1, catch.
          rewrite (bind_raise _ _ _ _ _ (invoke_err _ _ _ _ Hr)).
          rewrite (bind_ok _ _ _ _ _ Ecb).
          rewrite (bind_raise _ _ _ _ _ (invoke_err _ _ _ _ Ec)).
          reflexivity. }
        split; [| right; eexists; reflexivity].
        simpl. rewrite L3. simpl. rewrite Hlog2, <- !app_assoc. reflexivity.
      * do 2 eexists. split.
        { unfold bind at 1, catch.
          rewrite (bind_raise _ _ _ _ _ (invoke_err _ _ _ _ Hr)).
          rewrite (bind_ok _ _ _ _ _ Ecb).
          rewrite (bind_ok _ _ _ _ _ (invoke_ok _ _ _ _ Ec)).
          reflexivity. }
        split; [| left; reflexivity].
        simpl. rewrite L3. simpl. rewrite Hlog2, <- !app_assoc. reflexivity.
    + intros n e3 v Hr Hcb. rewrite <- Henv2 in Hr. subst email_code_callback.
      do 2 eexists.
      unfold bind at 1, catch.
      rewrite (bind_raise _ _ _ _ _ (invoke_err _ _ _ _ Hr)). reflexivity.
    + intros err e3 Hr Hne. rewrite <- Henv2 in Hr.
      eexists. split.
      { unfold bind at 1, catch.
        rewrite (bind_raise _ _ _ _ _ (invoke_err _ _ _ _ Hr)).
        destruct err; try reflexivity.
        exfalso. eapply Hne. reflexivity. }
      simpl. rewrite Hlog2, <- app_assoc. reflexivity.
    + intros w' H. unfold bind in H.
      destruct (catch _ _ w2) as [[[] | e |] w3]; discriminate H.
Qed.

(** ** [send_code_request] when the remote refuses *)

(** A request that the remote refuses leaves the cache as it was. When the
    send-code request fails (with an error other than [AuthRestartError]),
    that error is raised and the hashes, the terms of service and the
    phone of the client are unchanged. When a hash is cached and the resend
    request fails, the error is raised and the hashes are unchanged. When
    the code was sent and the forced resend fails, the error is raised
    with the hash of the first answer cached. *)
Theorem send_code_request_refused (fuel : nat) (phone : PyVal)
    (force_sms : bool) (w : Client) (ph : option string) :
  py_or (parse_phone phone) (_phone w) = ph ->
  (truthy_str (_phone_code_hash w !! ph) = None ->
   forall err e1,
     remote _ (SendCodeRequest ph (api_id w) (api_hash w)) (env w)
     = (inl err, e1) ->
     err <> AuthRestartError ->
     exists w',
       send_code_request (S fuel) phone force_sms w = (Raise (RPC err), w')
       /\ log w'
          = log w ++ [Invoked (SendCodeRequest ph (api_id w) (api_hash w))]
       /\ _phone_code_hash w' = _phone_code_hash w
       /\ _tos w' = _tos w
       /\ _phone w' = _phone w)
  /\ (forall h,
         truthy_str (_phone_code_hash w !! ph) = Some h ->
         forall err e1,
           remote _ (ResendCodeRequest ph h) (env w) = (inl err, e1) ->
           exists w',
             send_code_request (S fuel) phone force_sms w
             = (Raise (RPC err), w')
             /\ log w' = log w ++ [Invoked (ResendCodeRequest ph h)]
             /\ _phone_code_hash w' = _phone_code_hash w
             /\ _phone w' = ph)
  /\ (truthy_str (_phone_code_hash w !! ph) = None ->
      forall sc e1 err e2,
        remote _ (SendCodeRequest ph (api_id w) (api_hash w)) (env w)
        = (inr sc, e1) ->
        remote _ (ResendCodeRequest ph (phone_code_hash sc)) e1
        = (inl err, e2) ->
        exists w',
          send_code_request (S fuel) phone true w = (Raise (RPC err), w')
          /\ _phone_code_hash w' !! ph = Some (phone_code_hash sc)
          /\ _tos w' = terms_of_service sc
          /\ _phone w' = ph).
Proof.
  intros Hph. split; [| split].
  - intros Hnone err e1 Hr Hne. eexists. split.
    { cbn [send_code_request]. rewrite Hph, Hnone.
      rewrite (invoke_err _ _ _ _ Hr).
      destruct err; try reflexivity. contradiction. }
    repeat split.
  - intros h Hsome err e1 Hr. eexists. split.
    { cbn [send_code_request]. rewrite Hph, Hsome.
      rewrite (bind_raise _ _ _ _ _ (invoke_err _ (set_phone ph w) _ _ Hr)).
      reflexivity. }
    repeat split.
  - intros Hnone sc e1 err e2 Hr1 Hr2. eexists. split.
    { cbn [send_code_request]. rewrite Hph, Hnone.
      rewrite (invoke_ok _ _ _ _ Hr1).
      match goal with
      | |- bind _ _ ?w0 = _ =>
        rewrite (bind_raise _ _ _ _ _ (invoke_err _ w0 _ _ Hr2))
      end.
      reflexivity. }
    simpl. repeat split. apply lookup_insert_eq.
Qed.

(** After an [AuthRestartError] the send-code request is sent again for
    the normalized phone; when the remote then answers, the answer is
    returned and its hash cached as if there had been no restart. *)
Theorem send_code_request_after_restart (fuel : nat) (phone : PyVal)
    (w : Client) (p : string) (sc : SentCode) (e1 e2 : Env) :
  py_or (parse_phone phone) (_phone w) = Some p ->
  str_truthy p = true ->
  parse_phone (PStr p) = Some p ->
  truthy_str (_phone_code_hash w !! Some p) = None ->
  remote _ (SendCodeRequest (Some p) (api_id w) (api_hash w)) (env w)
  = (inl AuthRestartError, e1) ->
  remote _ (SendCodeRequest (Some p) (api_id w) (api_hash w)) e1
  = (inr sc, e2) ->
  exists w',
    send_code_request (S (S fuel)) phone false w = (Ok sc, w')
    /\ log w'
       = log w
         ++ [Invoked (SendCodeRequest (Some p) (api_id w) (api_hash w));
             Invoked (SendCodeRequest (Some p) (api_id w) (api_hash w))]
    /\ _phone_code_hash w' !! Some p = Some (phone_code_hash sc)
    /\ _tos w' = terms_of_service sc
    /\ _phone w' = Some p.
Proof.
  intros Hph Ht Hidem Hnone Hr1 Hr2. eexists. split.
  { cbn [send_code_request]. rewrite Hph, Hnone.
    rewrite (invoke_err _ _ _ _ Hr1).
    cbn [of_opt _phone _phone_code_hash api_id api_hash set_env set_log].
    rewrite Hidem.
    replace (py_or (Some p) (_phone w)) with (Some p)
      by (unfold py_or; simpl; rewrite Ht; reflexivity).
    rewrite Hnone.
    match goal with
    | |- context [invoke ?rq ?w0] =>
      rewrite (invoke_ok rq w0 _ _ Hr2)
    end.
    reflexivity. }
  simpl. split; [rewrite <- app_assoc; reflexivity |].
  repeat split. apply lookup_insert_eq.
Qed.

(** ** [_start] with a bot token *)

Lemma start_connects (w : Client) :
  (fun w : Client => if negb (is_connected w) then connect w else ret tt w) w
  = (Ok tt, if connected w then w else set_connected true w).
Proof. unfold is_connected. destruct (connected w); reflexivity. Qed.

Lemma sign_in_bot_token (fuel : nat) (bot_token : PyVal) (w w1 : Client) :
  get_me w = (Ok None, w1) ->
  truthy bot_token = true ->
  (forall a e,
      remote _ (ImportBotAuthorizationRequest 0 bot_token
                  (api_id w1) (api_hash w1)) (env w1) = (inr a, e) ->
      exists w',
        sign_in fuel PNone PNone PNone bot_token None w
        = (Ok (RUser (user a)), w')
        /\ log w'
           = log w1
             ++ [Invoked (ImportBotAuthorizationRequest 0 bot_token
                            (api_id w1) (api_hash w1))]
        /\ _authorized w' = Some true
        /\ _bot w' = Some (is_bot (user a)))
  /\ (forall err e,
         remote _ (ImportBotAuthorizationRequest 0 bot_token
                     (api_id w1) (api_hash w1)) (env w1) = (inl err, e) ->
         exists w',
           sign_in fuel PNone PNone PNone bot_token None w
           = (Raise (RPC err), w')
           /\ log w'
              = log w1
                ++ [Invoked (ImportBotAuthorizationRequest 0 bot_token
                               (api_id w1) (api_hash w1))]
           /\ same_login w1 w').
Proof.
  intros Hme Hb. split.
  - intros a e Hr. eexists. split.
    { unfold sign_in. rewrite (bind_ok _ _ _ _ _ Hme). cbn [truthy andb].
      rewrite Hb. unfold bind at 1. rewrite (invoke_ok _ _ _ _ Hr).
      reflexivity. }
    repeat split.
  - intros err e Hr. eexists. split.
    { unfold sign_in. rewrite (bind_ok _ _ _ _ _ Hme). cbn [truthy andb].
      rewrite Hb. unfold bind at 1. rewrite (invoke_err _ _ _ _ Hr).
      reflexivity. }
    repeat split.
Qed.

(** With a bot token, [_start] on a client that is not authorized sends
    one request, the import of the bot authorization, and asks nothing of
    the caller: the phone and the code callback are not called. When the
    remote accepts the token the client is authorized as the bot's user;
    when it refuses, the error is raised and no login is recorded. *)
Theorem start_with_bot_token (fuel : nat)
    (phone password : Arg (Callback Env)) (bot_token : PyVal)
    (force_sms : bool) (code_callback : Callback Env)
    (first_name last_name : string) (max_attempts : Z) (w w1 w2 : Client) :
  truthy bot_token = true ->
  is_user_authorized (if connected w then w else set_connected true w)
  = (Ok false, w1) ->
  get_me w1 = (Ok None, w2) ->
  let request :=
    Invoked (ImportBotAuthorizationRequest 0 bot_token
               (api_id w2) (api_hash w2)) in
  (forall a e,
      remote _ (ImportBotAuthorizationRequest 0 bot_token
                  (api_id w2) (api_hash w2)) (env w2) = (inr a, e) ->
      exists w',
        _start fuel phone password bot_token force_sms code_callback
          first_name last_name max_attempts w = (Ok tt, w')
        /\ log w' = log w2 ++ [request]
        /\ _authorized w' = Some true
        /\ _bot w' = Some (is_bot (user a)))
  /\ (forall err e,
         remote _ (ImportBotAuthorizationRequest 0 bot_token
                     (api_id w2) (api_hash w2)) (env w2) = (inl err, e) ->
         exists w',
           _start fuel phone password bot_token force_sms code_callback
             first_name last_name max_attempts w = (Raise (RPC err), w')
           /\ log w' = log w2 ++ [request]
           /\ same_login w2 w').
Proof.
  intros Hb Hauth Hme request.
  assert (Hhead :
            _start fuel phone password bot_token force_sms code_callback
              first_name last_name max_attempts w
            = (sign_in fuel PNone PNone PNone bot_token None ;;; ret tt) w1).
  { unfold _start.
    rewrite (bind_ok _ _ _ _ _ (start_connects w)).
    rewrite (bind_ok _ _ _ _ _ Hauth). rewrite Hb. cbn [negb].
    unfold bind at 1, ret at 1. cbn [fst snd]. rewrite Hb. reflexivity. }
  destruct (sign_in_bot_token fuel bot_token w1 w2 Hme Hb) as [Hok Herr].
  split.
  - intros a e Hr. destruct (Hok a e Hr) as (w' & E & L & A & B).
    exists w'. rewrite Hhead, (bind_ok _ _ _ _ _ E).
    repeat split; assumption.
  - intros err e Hr. destruct (Herr err e Hr) as (w' & E & L & S).
    exists w'. rewrite Hhead, (bind_raise _ _ _ _ _ E).
    repeat split; try assumption; apply S.
Qed.

(** When no bot token is given and the phone callback gives a value that
    contains a colon, [_start] takes that value for a bot token: it asks
    for the phone once, sends the import of the bot authorization with
    the value, and neither sends a code nor asks for one. *)
Theorem start_bot_token_at_phone_prompt (fuel : nat)
    (ask_phone : Callback Env) (password : Arg (Callback Env))
    (bot_token : PyVal) (force_sms : bool) (code_callback : Callback Env)
    (first_name last_name : string) (max_attempts : Z)
    (w w1 w2 w3 : Client) (v : string) (a : Authorization) (e : Env) :
  truthy bot_token = false ->
  is_user_authorized (if connected w then w else set_connected true w)
  = (Ok false, w1) ->
  call_callback ForPhone ask_phone w1 = (Ok v, w2) ->
  str_contains ":" v = true ->
  get_me w2 = (Ok None, w3) ->
  remote _ (ImportBotAuthorizationRequest 0 (PStr v)
              (api_id w3) (api_hash w3)) (env w3) = (inr a, e) ->
  exists w',
    _start (S fuel) (Callable ask_phone) password bot_token force_sms
      code_callback first_name last_name max_attempts w = (Ok tt, w')
    /\ log w2 = log w1 ++ [Asked ForPhone v]
    /\ log w'
       = log w3
         ++ [Invoked (ImportBotAuthorizationRequest 0 (PStr v)
                        (api_id w3) (api_hash w3))]
    /\ _authorized w' = Some true
    /\ _bot w' = Some (is_bot (user a)).
Proof.
  intros Hb Hauth Hcb Hcolon Hme Hr.
  assert (Hv : truthy (PStr v) = true)
    by (apply (str_contains_truthy _ _ Hcolon)).
  destruct (proj1 (sign_in_bot_token (S fuel) (PStr v) w2 w3 Hme Hv) a e Hr)
    as (w' & E & L & A & B).
  destruct (call_callback_log ForPhone ask_phone w1)
    as (v' & w2' & E2 & L2 & _).
  rewrite Hcb in E2. inversion E2; subst v' w2'.
  exists w'. split; [| repeat split; assumption].
  unfold _start.
  rewrite (bind_ok _ _ _ _ _ (start_connects w)).
  rewrite (bind_ok _ _ _ _ _ Hauth). rewrite Hb. cbn [negb resolve_phone].
  rewrite bind_bind, (bind_ok _ _ _ _ _ Hcb), Hcolon.
  unfold bind at 1, ret at 1. cbn [fst snd]. rewrite Hv.
  rewrite (bind_ok _ _ _ _ _ E). reflexivity.
Qed.

(** ** The bounds of the code loop *)

(** With [max_attempts] zero or negative the code is sent, and then the
    flow raises the [RuntimeError] at once: the caller is never asked for
    the code and nothing more is sent. *)
Theorem phone_flow_without_attempts (N : Z) (fuel : nat) (phone : PyVal)
    (password : Arg (Callback Env)) (force_sms : bool) (cb : Callback Env)
    (first_name last_name : string) (w w1 : Client) (sc : SentCode) :
  (N <= 0)%Z ->
  send_code_request fuel phone force_sms w = (Ok sc, w1) ->
  phone_flow fuel phone password force_sms cb first_name last_name N w
  = (Raise (RuntimeError
              (str_of_int N
               +:+ " consecutive sign-in attempts failed. Aborting")), w1).
Proof.
  intros HN Hsend. unfold phone_flow. rewrite (bind_ok _ _ _ _ _ Hsend).
  apply bind_raise.
  replace (Z.to_nat N) with 0%nat by lia. cbn [code_loop].
  replace (0 <? N)%Z with false by (symmetry; apply Z.ltb_ge; lia).
  reflexivity.
Qed.


(** ** How often the caller is asked *)

Section LogRelation.

(** A relation between the client before and after a call that only
    looks at the requests added to the log. *)
Variable R : Client -> Client -> Prop.
Hypothesis R_trans : forall a b c, R a b -> R b c -> R a c.
Hypothesis R_same_log : forall w w' : Client, log w' = log w -> R w w'.
Hypothesis R_invoke :
  forall (w w' : Client) (T : Type) (r : Request T),
    log w' = log w ++ [Invoked r] -> R w w'.
Hypothesis Hme : not_signed_in.

Lemma rel_refl (w : Client) : R w w.
Proof. apply R_same_log. reflexivity. Qed.

Lemma rel_invoke {T : Type} (r : Request T) : preserves R (invoke r).
Proof.
  intros w o w' H. unfold invoke in H.
  destruct (remote T r (env w)) as [[err | x] e1]; inversion H; subst;
    apply (R_invoke _ _ T r); reflexivity.
Qed.

Lemma rel_get_me : preserves R get_me.
Proof.
  intros w o w' H. destruct (Hme w) as [e He]. rewrite He in H.
  inversion H; subst. apply R_same_log. reflexivity.
Qed.

Lemma rel_parse (phone : PyVal) (hash : option string) :
  preserves R (_parse_phone_and_hash phone hash).
Proof.
  intros w o w' H. rewrite (parse_phone_and_hash_same _ _ _ _ _ H).
  apply rel_refl.
Qed.

Lemma rel_on_login (u : User) : preserves R (_on_login u).
Proof.
  intros w o w' H. unfold _on_login, bind, modify, ret in H.
  inversion H; subst. apply R_same_log. reflexivity.
Qed.

Lemma rel_write_tos : preserves R write_tos.
Proof.
  intros w o w' H. destruct (write_tos_stderr w) as (w1 & E & L & _).
  rewrite E in H. inversion H; subst. apply R_same_log. exact L.
Qed.

Lemma rel_accept_tos : preserves R accept_tos.
Proof.
  intros w o w' H. unfold accept_tos in H.
  destruct (_tos w) as [tos |].
  - revert H. generalize w o w'.
    fold (preserves R
            (invoke (AcceptTermsOfServiceRequest (tos_id tos)) ;;; ret tt)).
    apply preserves_bind; [exact R_trans | apply rel_invoke |].
    intros _. apply preserves_ret, rel_refl.
  - inversion H; subst. apply rel_refl.
Qed.

Lemma rel_resend (ph : option string) (h : string) :
  preserves R
    (result <- invoke (ResendCodeRequest ph h) ;;
     modify (fun w =>
       set_phone_code_hash
         (<[ph := phone_code_hash result]> (_phone_code_hash w)) w) ;;;
     ret result).
Proof.
  apply preserves_bind; [exact R_trans | apply rel_invoke |].
  intros sc. apply preserves_bind; [exact R_trans | |].
  - apply preserves_modify. intros w0. apply R_same_log. reflexivity.
  - intros _. apply preserves_ret, rel_refl.
Qed.

Lemma rel_send_code_request (fuel : nat) :
  forall phone force_sms,
    preserves R (send_code_request fuel phone force_sms).
Proof.
  induction fuel as [| fuel IH]; intros phone force_sms.
  - apply preserves_out_of_fuel, rel_refl.
  - intros w r w' H. cbn [send_code_request] in H.
    set (ph := py_or (parse_phone phone) (_phone w)) in *.
    destruct (truthy_str (_phone_code_hash w !! ph)) as [h |].
    + eapply R_trans; [| eapply rel_resend; exact H].
      apply R_same_log. reflexivity.
    + destruct (invoke (SendCodeRequest ph (api_id w) (api_hash w)) w)
        as [[sc | e |] w1] eqn:E;
        pose proof (rel_invoke _ _ _ _ E) as H1.
      * eapply R_trans; [exact H1 |].
        destruct force_sms.
        -- eapply R_trans; [| eapply rel_resend; exact H].
           apply R_same_log. reflexivity.
        -- inversion H; subst. apply R_same_log. reflexivity.
      * destruct e as [[] | | |]; try (inversion H; subst; exact H1).
        eapply R_trans; [exact H1 | eapply IH; exact H].
      * inversion H; subst. exact H1.
Qed.

Lemma rel_sign_in (fuel : nat) (phone code password bot_token : PyVal)
    (hash : option string) :
  preserves R (sign_in fuel phone code password bot_token hash).
Proof.
  unfold sign_in.
  apply preserves_bind; [exact R_trans | apply rel_get_me | intros [u |]].
  - apply preserves_ret, rel_refl.
  - destruct (truthy phone && negb (truthy code) && negb (truthy password)).
    + apply preserves_bind;
        [exact R_trans | apply rel_send_code_request |].
      intros sc. apply preserves_ret, rel_refl.
    + apply preserves_bind; [exact R_trans | | intros a].
      * destruct (truthy code).
        -- apply preserves_bind;
             [exact R_trans | apply rel_parse | intros ph].
           apply rel_invoke.
        -- destruct (truthy password).
           ++ apply preserves_bind;
                [exact R_trans | apply rel_invoke | intros pwd].
              apply rel_invoke.
           ++ destruct (truthy bot_token).
              ** intros w o w' H. eapply rel_invoke. exact H.
              ** apply preserves_raise, rel_refl.
      * apply preserves_bind;
          [exact R_trans | apply rel_on_login | intros u].
        apply preserves_ret, rel_refl.
Qed.

Lemma rel_sign_up (code : PyVal) (first_name last_name : string)
    (phone : PyVal) (hash : option string) :
  preserves R (sign_up code first_name last_name phone hash).
Proof.
  unfold sign_up.
  apply preserves_bind; [exact R_trans | apply rel_get_me | intros [u |]].
  - apply preserves_ret, rel_refl.
  - apply preserves_bind; [exact R_trans | apply rel_write_tos | intros _].
    apply preserves_bind; [exact R_trans | apply rel_parse | intros ph].
    apply preserves_bind; [exact R_trans | apply rel_invoke | intros a].
    apply preserves_bind; [exact R_trans | apply rel_accept_tos | intros _].
    apply rel_on_login.
Qed.

End LogRelation.

(** The caller was asked at most [c] times for the code and at most [p]
    times for the password. *)
Definition asked_at_most (c p : nat) (w w' : Client) : Prop :=
  exists evs,
    log w' = log w ++ evs
    /\ (count is_code_ask evs <= c)%nat
    /\ (count is_password_ask evs <= p)%nat.

Lemma asked_at_most_trans (c1 p1 c2 p2 : nat) (a b c : Client) :
  asked_at_most c1 p1 a b -> asked_at_most c2 p2 b c ->
  asked_at_most (c1 + c2) (p1 + p2) a c.
Proof.
  intros (e1 & L1 & C1 & P1) (e2 & L2 & C2 & P2).
  exists (e1 ++ e2). rewrite L2, L1, app_assoc, !count_app.
  repeat split; lia.
Qed.

Lemma asked_at_most_more (c p c' p' : nat) (w w' : Client) :
  (c <= c')%nat -> (p <= p')%nat ->
  asked_at_most c p w w' -> asked_at_most c' p' w w'.
Proof.
  intros Hc Hp (evs & L & C & P). exists evs. repeat split; [exact L | lia | lia].
Qed.

Lemma not_asked_trans (a b c : Client) :
  asked_at_most 0 0 a b -> asked_at_most 0 0 b c -> asked_at_most 0 0 a c.
Proof. apply (asked_at_most_trans 0 0 0 0). Qed.

Lemma not_asked_same_log (w w' : Client) :
  log w' = log w -> asked_at_most 0 0 w w'.
Proof.
  intros H. exists []. rewrite H, app_nil_r. repeat split; cbv; lia.
Qed.

Lemma not_asked_invoke (w w' : Client) (T : Type) (r : Request T) :
  log w' = log w ++ [Invoked r] -> asked_at_most 0 0 w w'.
Proof.
  intros H. exists [Invoked r]. repeat split; [exact H | cbv; lia | cbv; lia].
Qed.

Lemma code_iteration_asks_once (fuel : nat) (phone : PyVal)
    (cb : Callback Env) (first_name last_name : string) (su : bool) :
  not_signed_in ->
  preserves (asked_at_most 1 0)
    (code_iteration fuel phone cb first_name last_name su).
Proof.
  intros Hme w r w' H.
  destruct (code_attempt fuel phone cb first_name last_name su w)
    as [o w1] eqn:E.
  destruct (code_iteration_same_log _ _ _ _ _ _ _ _ _ E)
    as (o' & w2 & Hit & L2).
  rewrite Hit in H. inversion H; subst o' w2. clear H.
  assert (Hatt : asked_at_most 1 0 w w1).
  { unfold code_attempt in E.
    destruct (call_callback_log ForCode cb w) as (v & wc & Ec & Lc & _).
    rewrite (bind_ok _ _ _ _ _ Ec) in E.
    apply (asked_at_most_trans 1 0 0 0 w wc w1).
    - exists [Asked ForCode v]. repeat split; [exact Lc | cbv; lia | cbv; lia].
    - destruct (negb (str_truthy v)).
      + inversion E; subst. apply not_asked_same_log. reflexivity.
      + destruct su.
        * unfold bind in E.
          destruct (sign_up (PStr v) first_name last_name PNone None wc)
            as [[u | e |] w3] eqn:Es;
            inversion E; subst;
            exact (rel_sign_up _ not_asked_trans not_asked_same_log
                     not_asked_invoke Hme _ _ _ _ _ _ _ _ Es).
        * exact (rel_sign_in _ not_asked_trans not_asked_same_log
                   not_asked_invoke Hme _ _ _ _ _ _ _ _ _ E). }
  destruct Hatt as (evs & L & C & P).
  exists evs. rewrite L2. repeat split; assumption.
Qed.

Lemma code_loop_asks (fuel : nat) (phone : PyVal) (cb : Callback Env)
    (first_name last_name : string) (N : Z) :
  not_signed_in ->
  forall n a su,
    preserves (asked_at_most n 0)
      (code_loop n fuel phone cb first_name last_name N a su).
Proof.
  intros Hme. induction n as [| n IH]; intros a su w r w' H;
    cbn [code_loop] in H; destruct (a <? N)%Z;
    try (inversion H; subst; apply (asked_at_most_more 0 0);
         [lia | lia | apply not_asked_same_log; reflexivity]).
  unfold bind in H.
  destruct (code_iteration fuel phone cb first_name last_name su w)
    as [[[me two | su'] | e |] w1] eqn:E;
    pose proof (code_iteration_asks_once _ _ _ _ _ _ Hme _ _ _ E) as H1.
  - inversion H; subst. eapply asked_at_most_more; [| | exact H1]; lia.
  - apply (asked_at_most_trans 1 0 n 0 w w1 w'); [exact H1 |].
    eapply IH. exact H.
  - inversion H; subst. eapply asked_at_most_more; [| | exact H1]; lia.
  - inversion H; subst. eapply asked_at_most_more; [| | exact H1]; lia.
Qed.

Lemma password_loop_asks (fuel : nat) (phone : PyVal) (cb : Callback Env) :
  not_signed_in ->
  forall n, preserves (asked_at_most 0 n) (password_loop n fuel phone cb).
Proof.
  intros Hme. induction n as [| n IH]; intros w r w' H;
    cbn [password_loop] in H.
  - inversion H; subst. apply not_asked_same_log. reflexivity.
  - unfold catch in H.
    destruct (call_callback_log ForPassword cb w) as (v & wc & Ec & Lc & _).
    rewrite (bind_ok _ _ _ _ _ Ec) in H.
    assert (H1 : asked_at_most 0 1 w wc).
    { exists [Asked ForPassword v].
      repeat split; [exact Lc | cbv; lia | cbv; lia]. }
    destruct (sign_in fuel phone PNone (PStr v) PNone None wc)
      as [o w2] eqn:Es.
    pose proof (rel_sign_in _ not_asked_trans not_asked_same_log
                  not_asked_invoke Hme _ _ _ _ _ _ _ _ _ Es) as H2.
    assert (H12 : asked_at_most 0 1 w w2)
      by exact (asked_at_most_trans 0 1 0 0 _ _ _ H1 H2).
    destruct o as [x | [[] | | |] |];
      try (inversion H; subst;
           eapply asked_at_most_more; [| | exact H12]; lia).
    unfold bind, print_stderr, modify in H.
    apply (asked_at_most_trans 0 1 0 n w w2 w'); [exact H12 |].
    apply (asked_at_most_trans 0 0 0 n w2
             (set_stderr
                (stderr w2 ++ ["Invalid password. Please try again"]) w2) w').
    + apply not_asked_same_log. reflexivity.
    + eapply IH. exact H.
Qed.

(** Whatever the remote answers and whatever the callbacks give, the phone
    flow of a client that is not signed in asks for the code at most
    [max_attempts] times and for the password at most [max_attempts]
    times (not at all when [max_attempts] is zero or negative). *)
Theorem prompts_bounded (N : Z) (fuel : nat) (phone : PyVal)
    (password : Arg (Callback Env)) (force_sms : bool) (cb : Callback Env)
    (first_name last_name : string) (w w' : Client) (r : Outcome unit) :
  not_signed_in ->
  phone_flow fuel phone password force_sms cb first_name last_name N w
  = (r, w') ->
  exists evs,
    log w' = log w ++ evs
    /\ (count is_code_ask evs <= Z.to_nat N)%nat
    /\ (count is_password_ask evs <= Z.to_nat N)%nat.
Proof.
  intros Hme H.
  assert (Hfinish : forall exit,
             preserves (asked_at_most 0 (Z.to_nat N))
               (finish_sign_in fuel phone password N exit)).
  { intros exit w0 r0 w0' H0. unfold finish_sign_in, bind in H0.
    destruct (two_step_detected exit).
    - destruct (password_phase fuel phone password N w0) as [o w1] eqn:Ep.
      assert (Hp : asked_at_most 0 (Z.to_nat N) w0 w1).
      { unfold password_phase in Ep.
        destruct (negb (arg_truthy password)).
        - inversion Ep; subst. apply (asked_at_most_more 0 0); [lia | lia |].
          apply not_asked_same_log. reflexivity.
        - destruct password as [v | f].
          + apply (asked_at_most_more 0 0); [lia | lia |].
            exact (rel_sign_in _ not_asked_trans not_asked_same_log
                     not_asked_invoke Hme _ _ _ _ _ _ _ _ _ Ep).
          + exact (password_loop_asks _ _ _ Hme _ _ _ _ Ep). }
      destruct o as [x | e |]; unfold ret in H0.
      + destruct (print_signed_in_ok (Some x) w1) as (w2 & E2 & L2).
        rewrite E2 in H0. inversion H0; subst.
        destruct Hp as (evs & L & C & P). exists evs.
        rewrite L2. repeat split; assumption.
      + inversion H0; subst. exact Hp.
      + inversion H0; subst. exact Hp.
    - unfold ret in H0.
      destruct (print_signed_in_ok (me exit) w0) as (w2 & E2 & L2).
      rewrite E2 in H0. inversion H0; subst.
      apply (asked_at_most_more 0 0); [lia | lia |].
      apply not_asked_same_log. exact L2. }
  unfold phone_flow, bind in H.
  destruct (send_code_request fuel phone force_sms w) as [o w1] eqn:Es.
  pose proof (rel_send_code_request _ not_asked_trans not_asked_same_log
                not_asked_invoke fuel _ _ _ _ _ Es) as H1.
  destruct o as [sc | e |];
    try (inversion H; subst;
         eapply asked_at_most_more; [| | exact H1]; lia).
  destruct (code_loop (Z.to_nat N) fuel phone cb first_name last_name N 0
              (negb (phone_registered sc)) w1) as [o w2] eqn:El.
  pose proof (code_loop_asks _ _ _ _ _ _ Hme _ _ _ _ _ _ El) as H2.
  pose proof (asked_at_most_trans _ _ _ _ _ _ _ H1 H2) as H12.
  destruct o as [exit | e |];
    try (inversion H; subst;
         eapply asked_at_most_more; [| | exact H12]; lia).
  pose proof (Hfinish exit _ _ _ H) as H3.
  pose proof (asked_at_most_trans _ _ _ _ _ _ _ H12 H3) as H123.
  eapply asked_at_most_more; [| | exact H123]; lia.
Qed.

(** ** The flow from end to end *)

Lemma print_signed_in_says (me : option SignInResult) (w : Client) :
  exists line,
    print_signed_in me w = (Ok tt, set_stdout (stdout w ++ [line]) w).
Proof.
  unfold print_signed_in.
  destruct (stdout_encodable _); eexists; reflexivity.
Qed.

Lemma resolve_phone_value (fuel : nat) (v bot_token : PyVal) (w : Client) :
  resolve_phone fuel (Fixed v) bot_token w = (Ok (Fixed v, bot_token), w).
Proof. destruct fuel; reflexivity. Qed.

(** [_start] with a phone given as a value, on a client that is not
    authorized, when the code is sent for a registered phone, the caller
    gives a code that is not empty and the remote accepts it: the caller is
    asked once, one sign-in request is sent, the client ends authorized,
    one line is printed and [_start] returns. *)
Theorem start_signs_in_with_accepted_code (N : Z) (fuel : nat) (v : PyVal)
    (password : Arg (Callback Env)) (bot_token : PyVal) (force_sms : bool)
    (cb : Callback Env) (first_name last_name : string) (p h : string)
    (w w1 w2 : Client) (sc : SentCode) :
  (1 <= N)%Z ->
  not_signed_in ->
  truthy bot_token = false ->
  is_user_authorized (if connected w then w else set_connected true w)
  = (Ok false, w1) ->
  send_code_request fuel v force_sms w1 = (Ok sc, w2) ->
  phone_registered sc = true ->
  code_sent v p h w2 ->
  yields_nonempty cb ->
  (forall c e, exists a e', remote _ (SignInRequest p h c) e = (inr a, e')) ->
  exists w' code line,
    _start fuel (Fixed v) password bot_token force_sms cb first_name
      last_name N w = (Ok tt, w')
    /\ log w' = log w2 ++ [Asked ForCode code;
                           Invoked (SignInRequest p h code)]
    /\ _authorized w' = Some true
    /\ stdout w' = stdout w2 ++ [line].
Proof.
  intros HN Hme Hb Hauth Hsend Hreg Hsent Hy Haccept.
  destruct (call_callback_log ForCode cb w2)
    as (c & w3 & Ecb & L3 & _ & W3).
  pose proof (call_callback_nonempty _ _ _ _ _ Hy Ecb) as Hc.
  assert (Hsent3 : code_sent v p h w3).
  { eapply code_sent_same; [exact Hsent |]. rewrite W3. split; reflexivity. }
  assert (Hout3 : stdout w3 = stdout w2) by (rewrite W3; reflexivity).
  destruct (sign_in_with_code fuel v p h c w3 Hme Hsent3 Hc)
    as (e0 & _ & Hok).
  destruct (Haccept c e0) as (a & e' & Hr).
  destruct (Hok a e' Hr) as (w4 & Es & L4).
  destruct (Hme w3) as [e0' He0'].
  destruct (sign_in_records_login fuel v (PStr c) PNone PNone None
              w3 (set_env e0' w3) w4 _ He0' Es) as [Hlogin _].
  destruct (Hlogin (user a) eq_refl) as (A & _ & _).
  assert (Hout4 : stdout w4 = stdout w3).
  { unfold sign_in in Es. rewrite (bind_ok _ _ _ _ _ He0') in Es.
    cbn [truthy] in Es. rewrite Hc in Es. rewrite andb_false_r in Es.
    cbn [andb negb] in Es. rewrite bind_bind in Es.
    destruct (parse_phone_and_hash_sent v p h (set_env e0' w3)) as [Hp _].
    { eapply code_sent_same; [exact Hsent3 | split; reflexivity]. }
    rewrite (bind_ok _ _ _ _ _ Hp) in Es. cbn [fst snd py_str] in Es.
    unfold bind, invoke in Es.
    destruct (remote _ (SignInRequest p h c) (env (set_env e0' w3)))
      as [[err | a'] e1]; inversion Es; subst; reflexivity. }
  destruct (print_signed_in_says (Some (RUser (user a))) w4)
    as (line & Ep).
  eexists. exists c, line. split.
  { unfold _start.
    rewrite (bind_ok _ _ _ _ _ (start_connects w)).
    rewrite (bind_ok _ _ _ _ _ Hauth). rewrite Hb. cbn [negb].
    rewrite (bind_ok _ _ _ _ _ (resolve_phone_value fuel v bot_token w1)).
    cbn [fst snd fixed_value]. rewrite Hb.
    unfold phone_flow. rewrite (bind_ok _ _ _ _ _ Hsend). rewrite Hreg.
    cbn [negb].
    destruct (Z.to_nat N) as [| n] eqn:HNn; [lia |].
    cbn [code_loop].
    replace (0 <? N)%Z with true by (symmetry; apply Z.ltb_lt; lia).
    assert (Hit : code_iteration fuel v cb first_name last_name false w2
                  = (Ok (Break (Some (RUser (user a))) false), w4)).
    { unfold code_iteration, code_attempt.
      rewrite (bind_ok _ _ _ _ _ Ecb), Hc. cbn [negb]. rewrite Es.
      reflexivity. }
    rewrite bind_bind, (bind_ok _ _ _ _ _ Hit).
    unfold bind at 1, ret at 1. unfold finish_sign_in.
    cbn [two_step_detected me]. unfold bind at 1, ret at 1.
    exact Ep. }
  simpl. rewrite L4, L3, <- app_assoc, Hout4, Hout3.
  repeat split. exact A.
Qed.

(** When the remote asks for the password and no password was given to
    [start] ([None] or an empty value), the flow raises the [ValueError]
    that names the [password] argument: nothing is sent after the
    submission of the code, and the caller is not asked again. *)
Theorem missing_password_is_fatal (N : Z) (fuel : nat) (phone pv : PyVal)
    (force_sms : bool) (cb : Callback Env) (first_name last_name : string)
    (w w1 w2 : Client) (sc : SentCode) :
  (1 <= N)%Z ->
  truthy pv = false ->
  send_code_request fuel phone force_sms w = (Ok sc, w1) ->
  code_attempt fuel phone cb first_name last_name
    (negb (phone_registered sc)) w1
  = (Raise (RPC SessionPasswordNeededError), w2) ->
  exists msg,
    phone_flow fuel phone (Fixed pv) force_sms cb first_name last_name N w
    = (Raise (ValueError msg), w2).
Proof.
  intros HN Hpv Hsend Hatt. eexists.
  unfold phone_flow. rewrite (bind_ok _ _ _ _ _ Hsend).
  destruct (Z.to_nat N) as [| n] eqn:HNn; [lia |].
  cbn [code_loop].
  replace (0 <? N)%Z with true by (symmetry; apply Z.ltb_lt; lia).
  assert (Hit : code_iteration fuel phone cb first_name last_name
                  (negb (phone_registered sc)) w1
                = (Ok (Break None true), w2)).
  { unfold code_iteration. rewrite Hatt. reflexivity. }
  rewrite bind_bind, (bind_ok _ _ _ _ _ Hit).
  unfold bind at 1, ret at 1. unfold finish_sign_in.
  cbn [two_step_detected]. unfold password_phase. cbn [arg_truthy].
  rewrite Hpv. reflexivity.
Qed.

End Methods.

(** * The further properties on concrete runs *)

Section MethodRuns.

Import Demo.

(** The collaborators [c] with another remote. *)
Definition with_remote (c : Collaborators Script)
    (r : forall T : Type, Request T -> Script -> (RPCError + T) * Script)
  : Collaborators Script :=
  {| remote := r;
     get_me := get_me (Collaborators := c);
     is_user_authorized := is_user_authorized (Collaborators := c);
     parse_phone := parse_phone (Collaborators := c);
     get_display_name := get_display_name (Collaborators := c);
     get_input_peer := get_input_peer (Collaborators := c);
     compute_check := compute_check (Collaborators := c);
     compute_digest := compute_digest (Collaborators := c);
     urandom := urandom (Collaborators := c);
     input := input (Collaborators := c);
     stdout_encodable := stdout_encodable (Collaborators := c);
     ascii_only := ascii_only (Collaborators := c) |}.

(** A remote that refuses to send and to resend a code, and to accept the
    terms of service. *)
Definition refusing_remote (T : Type) (r : Request T)
  : Script -> (RPCError + T) * Script :=
  match r in Request T return Script -> (RPCError + T) * Script with
  | SendCodeRequest _ _ _ =>
    fun e => (inl (OtherRPCError "PHONE_NUMBER_INVALID"), e)
  | ResendCodeRequest _ _ =>
    fun e => (inl (OtherRPCError "SEND_CODE_UNAVAILABLE"), e)
  | AcceptTermsOfServiceRequest _ =>
    fun e => (inl (OtherRPCError "TOS_REFUSED"), e)
  | r => demo_remote false scripted None true _ r
  end.

Definition refusing : Collaborators Script :=
  with_remote by_script refusing_remote.

(** A remote that restarts the authorization as long as the script has
    entropy left, one byte for each restart. *)
Definition restarting_remote (T : Type) (r : Request T)
  : Script -> (RPCError + T) * Script :=
  match r in Request T return Script -> (RPCError + T) * Script with
  | SendCodeRequest _ _ _ =>
    fun e =>
      match entropy e with
      | [] =>
        (inr {| phone_registered := true; phone_code_hash := "h1";
                terms_of_service := None |}, e)
      | _ :: rest =>
        (inl AuthRestartError,
         {| answers := answers e; sign_replies := sign_replies e;
            entropy := rest |})
      end
  | r => demo_remote true scripted None false _ r
  end.

Definition restarting : Collaborators Script :=
  with_remote by_script restarting_remote.

(** The terms of service of the runs. *)
Definition terms : TermsOfService :=
  {| tos_id := "tos-1"; tos_text := "Be kind."; tos_entities := [] |}.

Lemma parse_phone_and_hash_result_witness :
  _parse_phone_and_hash (collab := by_script) PNone (Some "given")
    (code_sent_client (script [] []))
  = (Ok ("34600", "given"), code_sent_client (script [] []))
  /\ _parse_phone_and_hash (collab := by_script) PNone None
       (fresh_client (script [] []))
     = (Raise (ValueError "Please make sure to call send_code_request first."),
        fresh_client (script [] [])).
Proof.
  destruct (parse_phone_and_hash_result (collab := by_script) PNone
              (Some "given") (code_sent_client (script [] [])))
    as (r & E & _ & _ & Hgiven & _).
  destruct (parse_phone_and_hash_result (collab := by_script) PNone None
              (fresh_client (script [] [])))
    as (r' & E' & _ & _ & _ & Hnone & _).
  split.
  - rewrite E. f_equal. apply Hgiven; reflexivity.
  - rewrite E'. f_equal. apply Hnone. reflexivity.
Defined.

Lemma sign_in_login_on_success_witness :
  _authorized
    (snd (sign_in (collab := by_script) 1 (PStr "34600") (PStr "1111") PNone
            PNone None
            (code_sent_client (script [] [inr {| user := alice |}]))))
  = Some true
  /\ same_login
       (code_sent_client (script [] [inl PhoneCodeInvalidError]))
       (snd (sign_in (collab := by_script) 1 (PStr "34600") (PStr "1111")
               PNone PNone None
               (code_sent_client (script [] [inl PhoneCodeInvalidError])))).
Proof.
  split.
  - apply (proj1 (sign_in_login_on_success (collab := by_script) 1
                    (PStr "34600") (PStr "1111") PNone PNone None
                    (code_sent_client (script [] [inr {| user := alice |}]))
                    (code_sent_client (script [] [inr {| user := alice |}]))
                    _ (Ok (RUser alice)) eq_refl
                    ltac:(vm_compute; reflexivity)) alice eq_refl).
  - apply (proj2 (sign_in_login_on_success (collab := by_script) 1
                    (PStr "34600") (PStr "1111") PNone PNone None
                    (code_sent_client (script [] [inl PhoneCodeInvalidError]))
                    (code_sent_client (script [] [inl PhoneCodeInvalidError]))
                    _ (Raise (RPC PhoneCodeInvalidError)) eq_refl
                    ltac:(vm_compute; reflexivity))).
    intros u. discriminate.
Defined.

Lemma sign_in_dispatch_witness :
  (exists r w',
      sign_in (collab := by_script) 1 (PStr "34600") (PStr "1111")
        (PStr "secret") (PStr "12:ab") None
        (code_sent_client (script [] [inr {| user := alice |}])) = (r, w')
      /\ log w'
         = [Invoked (SendCodeRequest (Some "34600") 12345 "0123456789abcdef");
            Invoked (SignInRequest "34600" "h1" "1111")])
  /\ (exists msg,
         sign_in (collab := by_script) 1 PNone PNone PNone PNone None
           (fresh_client (script [] []))
         = (Raise (ValueError msg), fresh_client (script [] []))).
Proof.
  split.
  - apply (proj1 (proj1 (sign_in_dispatch (collab := by_script) 1
                           (PStr "34600") (PStr "1111") (PStr "secret")
                           (PStr "12:ab") None
                           (code_sent_client
                              (script [] [inr {| user := alice |}]))
                           (code_sent_client
                              (script [] [inr {| user := alice |}]))
                           eq_refl) eq_refl) "34600" "h1").
    vm_compute. reflexivity.
  - apply (proj2 (proj2 (proj2 (sign_in_dispatch (collab := by_script) 1
                                  PNone PNone PNone PNone None
                                  (fresh_client (script [] []))
                                  (fresh_client (script [] []))
                                  eq_refl))));
      reflexivity.
Defined.

Lemma sign_up_accepts_terms_witness :
  (exists w',
      sign_up (collab := by_script) (PStr "1111") "New" "User" PNone None
        (set_tos (Some terms)
           (code_sent_client (script [] [inr {| user := alice |}])))
      = (Ok alice, w')
      /\ log w'
         = [Invoked (SendCodeRequest (Some "34600") 12345 "0123456789abcdef");
            Invoked (SignUpRequest "34600" "h1" "1111" "New" "User");
            Invoked (AcceptTermsOfServiceRequest "tos-1")]
      /\ _authorized w' = Some true)
  /\ (exists w',
         sign_up (collab := refusing) (PStr "1111") "New" "User" PNone None
           (set_tos (Some terms)
              (code_sent_client (script [] [inr {| user := alice |}])))
         = (Raise (RPC (OtherRPCError "TOS_REFUSED")), w')
         /\ _authorized w' = None).
Proof.
  split.
  - destruct (proj1 (proj2 (sign_up_accepts_terms (collab := by_script)
                (PStr "1111") "New" "User" PNone None
                (set_tos (Some terms)
                   (code_sent_client (script [] [inr {| user := alice |}])))
                (set_tos (Some terms)
                   (code_sent_client (script [] [inr {| user := alice |}])))
                "34600" "h1" {| user := alice |} (script [] [])
                eq_refl ltac:(vm_compute; reflexivity)
                ltac:(vm_compute; reflexivity) eq_refl)
              terms eq_refl) true (script [] []) eq_refl)
      as (w' & E & L & A & _).
    exists w'. repeat split; assumption.
  - destruct (proj2 (proj2 (sign_up_accepts_terms (collab := refusing)
                (PStr "1111") "New" "User" PNone None
                (set_tos (Some terms)
                   (code_sent_client (script [] [inr {| user := alice |}])))
                (set_tos (Some terms)
                   (code_sent_client (script [] [inr {| user := alice |}])))
                "34600" "h1" {| user := alice |} (script [] [])
                eq_refl ltac:(vm_compute; reflexivity)
                ltac:(vm_compute; reflexivity) eq_refl)
              terms eq_refl) (OtherRPCError "TOS_REFUSED") (script [] [])
              eq_refl)
      as (w' & E & L & A & _).
    exists w'. split; [exact E | exact A].
Defined.

(** The remote asks for the confirmation of the email. *)
Definition confirming : Collaborators Script :=
  collaborators (Some alice) true scripted None true.

Lemma edit_2fa_outcomes_witness :
  edit_2fa (collab := as_alice) PNone PNone "hint" PNone (Fixed PNone)
    (signed_in_client (script [] []))
  = (Ok false, signed_in_client (script [] []))
  /\ (exists code r w',
         edit_2fa (collab := confirming) (PStr "old") (PStr "new") "hint"
           (PStr "me@example.org") (Callable (fun _ => ask))
           (signed_in_client (script ["123456"] [])) = (r, w')
         /\ log w'
            = [Invoked GetPasswordRequest;
               Invoked
                 (UpdatePasswordSettingsRequest
                    (compute_check (Collaborators := confirming)
                       (refresh_salt descriptor []) (PStr "old"))
                    {| pis_new_algo := new_algo (refresh_salt descriptor []);
                       pis_new_password_hash :=
                         compute_digest (Collaborators := confirming)
                           (new_algo (refresh_salt descriptor []))
                           (PStr "new");
                       pis_hint := "hint";
                       pis_email := PStr "me@example.org" |});
               Asked (ForEmailCode 6) code;
               Invoked (ConfirmPasswordEmailRequest code)]
         /\ (r = Ok true \/ exists err, r = Raise (RPC err))).
Proof.
  split.
  - apply (proj1 (edit_2fa_outcomes (collab := as_alice) PNone PNone "hint"
                    PNone (Fixed PNone) (signed_in_client (script [] []))));
      reflexivity.
  - apply (proj1 (proj2 (proj2 (proj2 (edit_2fa_outcomes
             (collab := confirming) (PStr "old") (PStr "new") "hint"
             (PStr "me@example.org") (Callable (fun _ => ask))
             (signed_in_client (script ["123456"] []))))
             descriptor (script ["123456"] []) (script ["123456"] []) []
             eq_refl eq_refl eq_refl eq_refl))
             6 (script ["123456"] []) (fun _ => ask) eq_refl eq_refl).
Defined.

Lemma send_code_request_refused_witness :
  exists w',
    send_code_request (collab := refusing) 1 (PStr "34600") false
      (fresh_client (script [] []))
    = (Raise (RPC (OtherRPCError "PHONE_NUMBER_INVALID")), w')
    /\ _phone_code_hash w' = ∅
    /\ _phone w' = None.
Proof.
  destruct (proj1 (send_code_request_refused (collab := refusing) 0
                     (PStr "34600") false (fresh_client (script [] []))
                     (Some "34600") eq_refl)
              eq_refl (OtherRPCError "PHONE_NUMBER_INVALID") (script [] [])
              eq_refl ltac:(discriminate))
    as (w' & E & _ & H & _ & P).
  exists w'. repeat split; assumption.
Defined.

Lemma send_code_request_after_restart_witness :
  exists w',
    send_code_request (collab := restarting) 2 (PStr "34600") false
      (fresh_client {| answers := []; sign_replies := []; entropy := [x01] |})
    = (Ok {| phone_registered := true; phone_code_hash := "h1";
             terms_of_service := None |}, w')
    /\ log w'
       = [Invoked (SendCodeRequest (Some "34600") 12345 "0123456789abcdef");
          Invoked (SendCodeRequest (Some "34600") 12345 "0123456789abcdef")].
Proof.
  destruct (send_code_request_after_restart (collab := restarting) 0
              (PStr "34600")
              (fresh_client
                 {| answers := []; sign_replies := []; entropy := [x01] |})
              "34600"
              {| phone_registered := true; phone_code_hash := "h1";
                 terms_of_service := None |}
              (script [] []) (script [] [])
              eq_refl eq_refl eq_refl eq_refl eq_refl eq_refl)
    as (w' & E & L & _).
  exists w'. split; [exact E | exact L].
Defined.

Lemma start_with_bot_token_witness :
  exists w',
    _start (collab := by_script) 1 (Callable ask) (Callable ask)
      (PStr "12:ab") false ask "New User" "" 3
      (fresh_client (script ["never asked"] [inr {| user := alice |}]))
    = (Ok tt, w')
    /\ log w'
       = [Invoked (ImportBotAuthorizationRequest 0 (PStr "12:ab") 12345
                     "0123456789abcdef")]
    /\ _authorized w' = Some true.
Proof.
  destruct (proj1 (start_with_bot_token (collab := by_script) 1
                     (Callable ask) (Callable ask) (PStr "12:ab") false ask
                     "New User" "" 3
                     (fresh_client
                        (script ["never asked"] [inr {| user := alice |}]))
                     (set_connected true
                        (fresh_client
                           (script ["never asked"]
                              [inr {| user := alice |}])))
                     (set_connected true
                        (fresh_client
                           (script ["never asked"]
                              [inr {| user := alice |}])))
                     eq_refl eq_refl eq_refl)
              {| user := alice |} (script ["never asked"] []) eq_refl)
    as (w' & E & L & A & _).
  exists w'. repeat split; assumption.
Defined.

Lemma start_bot_token_at_phone_prompt_witness :
  exists w',
    _start (collab := by_script) 1 (Callable ask) (Callable ask) PNone false
      ask "New User" "" 3
      (fresh_client (script ["12:ab"] [inr {| user := alice |}]))
    = (Ok tt, w')
    /\ log w'
       = [Asked ForPhone "12:ab";
          Invoked (ImportBotAuthorizationRequest 0 (PStr "12:ab") 12345
                     "0123456789abcdef")]
    /\ _authorized w' = Some true.
Proof.
  destruct (start_bot_token_at_phone_prompt (collab := by_script) 0 ask
              (Callable ask) PNone false ask "New User" "" 3
              (fresh_client (script ["12:ab"] [inr {| user := alice |}]))
              (set_connected true
                 (fresh_client (script ["12:ab"] [inr {| user := alice |}])))
              (set_log [Asked ForPhone "12:ab"]
                 (set_connected true
                    (fresh_client (script [] [inr {| user := alice |}]))))
              (set_log [Asked ForPhone "12:ab"]
                 (set_connected true
                    (fresh_client (script [] [inr {| user := alice |}]))))
              "12:ab" {| user := alice |} (script [] [])
              eq_refl eq_refl eq_refl eq_refl eq_refl eq_refl)
    as (w' & E & _ & L & A & _).
  exists w'. repeat split; assumption.
Defined.

Lemma phone_flow_without_attempts_witness :
  phone_flow (collab := by_script) 1 (PStr "34600") (Callable ask) false ask
    "New User" "" 0 (fresh_client (script ["1111"] []))
  = (Raise (RuntimeError "0 consecutive sign-in attempts failed. Aborting"),
     code_sent_client (script ["1111"] [])).
Proof.
  apply (phone_flow_without_attempts (collab := by_script) 0 1
           (PStr "34600") (Callable ask) false ask "New User" ""
           (fresh_client (script ["1111"] []))
           (code_sent_client (script ["1111"] []))
           {| phone_registered := true; phone_code_hash := "h1";
              terms_of_service := None |}
           ltac:(lia) (code_sent_client_is_sent _)).
Defined.


Lemma prompts_bounded_witness :
  exists evs,
    log (snd (phone_flow (collab := by_script) 1 (PStr "34600")
                (Callable ask) false ask "New User" "" 2
                (fresh_client
                   (script ["1111"; "pw1"; "pw2"]
                      [inl SessionPasswordNeededError]))))
    = log (fresh_client
             (script ["1111"; "pw1"; "pw2"]
                [inl SessionPasswordNeededError]))
      ++ evs
    /\ (count is_code_ask evs <= 2)%nat
    /\ (count is_password_ask evs <= 2)%nat.
Proof.
  apply (prompts_bounded (collab := by_script) 2 1 (PStr "34600")
           (Callable ask) false ask "New User" "" _ _ _
           (nobody_signed_in _ _ _ _) (surjective_pairing _)).
Defined.

Lemma start_signs_in_with_accepted_code_witness :
  exists w' code line,
    _start (collab := with_remote by_script
                        (demo_remote true
                           (fun e => (inr {| user := alice |}, e))
                           None false))
      1 (Fixed (PStr "34600")) (Callable ask) PNone false (always "1111")
      "New User" "" 3 (fresh_client (script [] []))
    = (Ok tt, w')
    /\ log w'
       = log (set_connected true (code_sent_client (script [] [])))
         ++ [Asked ForCode code;
             Invoked (SignInRequest "34600" "h1" code)]
    /\ _authorized w' = Some true
    /\ stdout w'
       = stdout (set_connected true (code_sent_client (script [] [])))
         ++ [line].
Proof.
  apply (start_signs_in_with_accepted_code
           (collab := with_remote by_script
                        (demo_remote true
                           (fun e => (inr {| user := alice |}, e))
                           None false))
           3 1 (PStr "34600") (Callable ask) PNone false (always "1111")
           "New User" "" "34600" "h1"
           (fresh_client (script [] []))
           (set_connected true (fresh_client (script [] [])))
           (set_connected true (code_sent_client (script [] [])))
           {| phone_registered := true; phone_code_hash := "h1";
              terms_of_service := None |}
           ltac:(lia)).
  - intros w. exists (env w). simpl. rewrite set_env_same. reflexivity.
  - reflexivity.
  - reflexivity.
  - vm_compute. reflexivity.
  - reflexivity.
  - repeat split; vm_compute; reflexivity.
  - intros e. reflexivity.
  - intros c e. do 2 eexists. reflexivity.
Defined.

Lemma missing_password_is_fatal_witness :
  exists msg,
    phone_flow (collab := by_script) 1 (PStr "34600") (Fixed PNone) false ask
      "New User" "" 3
      (fresh_client (script ["1111"] [inl SessionPasswordNeededError]))
    = (Raise (ValueError msg),
       set_log
         [Invoked (SendCodeRequest (Some "34600") 12345 "0123456789abcdef");
          Asked ForCode "1111";
          Invoked (SignInRequest "34600" "h1" "1111")]
         (code_sent_client (script [] []))).
Proof.
  apply (missing_password_is_fatal (collab := by_script) 3 1 (PStr "34600")
           PNone false ask "New User" ""
           (fresh_client (script ["1111"] [inl SessionPasswordNeededError]))
           (code_sent_client
              (script ["1111"] [inl SessionPasswordNeededError]))
           _
           {| phone_registered := true; phone_code_hash := "h1";
              terms_of_service := None |}
           ltac:(lia) eq_refl (code_sent_client_is_sent _)).
  vm_compute. reflexivity.
Defined.

End MethodRuns.
